(** * neural_sp: Transformer building blocks and the attention smoke test

    A shallow embedding of [neural_sp/models/modules/transformer.py] and of
    the training loop of [models/test/pytorch/attention/test_attention.py].

    Python exceptions are values of an error monad.  Tensors carry their
    shape and an indexing function.  The elements are real numbers: the
    rounding of the framework's float32 arithmetic is not modelled, so the
    statements about elements below say which operations produce them and
    use no identity of real arithmetic that rounding would break.
    The layers supplied by the host framework (Linear, Dropout, LayerNorm)
    and the modules of this package that are used but not defined in
    transformer.py (gelu, gelu_accurate, LinearGLUBlock,
    MultiheadAttentionMechanism) are the fields of the class [Framework];
    the model, optimizer and scoring functions the test drives are the
    fields of [TestAttention.Driver]. *)

From Stdlib Require Import ZArith List String Bool Lia Reals Lra QArith.
Import ListNotations.

Close Scope Q_scope.
Close Scope R_scope.

Set Implicit Arguments.

(** ** Python: exceptions and the math module *)

Module Py.

Inductive exn : Type :=
| NotImplementedError (arg : option string)
| ValueError
| ZeroDivisionError
| RuntimeError
| IndexError
| AttributeError (attr : string)
| AssertionError.

Inductive result (A : Type) : Type :=
| Ok (a : A)
| Raise (e : exn).

Arguments Ok {A} a.
Arguments Raise {A} e.

Definition bind {A B : Type} (c : result A) (k : A -> result B) : result B :=
  match c with
  | Ok a => k a
  | Raise e => Raise e
  end.

Definition is_ok {A : Type} (c : result A) : bool :=
  match c with Ok _ => true | Raise _ => false end.

(** The value of a computation that returns, [default] otherwise. *)
Definition get {A : Type} (c : result A) (default : A) : A :=
  match c with Ok a => a | Raise _ => default end.

(** [self.name] for an attribute that is set only on some paths of
    [__init__]. *)
Definition getattr {A : Type} (name : string) (field : option A) : result A :=
  match field with
  | Some a => Ok a
  | None => Raise (AttributeError name)
  end.

(** [math.sqrt(n)] for an int [n]: a domain error below zero. *)
Definition math_sqrt (n : Z) : result R :=
  if (n <? 0)%Z then Raise ValueError else Ok (sqrt (IZR n)).

(** [math.log(x)] at a positive float literal. *)
Definition math_log (x : R) : R := ln x.

(** [x / n] for a float [x] and an int [n] (true division). *)
Definition truediv (x : R) (n : Z) : result R :=
  if (n =? 0)%Z then Raise ZeroDivisionError else Ok (x / IZR n)%R.

End Py.

Export Py.

Declare Scope py_scope.
Delimit Scope py_scope with py.
Notation "x <- c ;; k" := (bind c (fun x => k))
  (at level 61, c at next level, right associativity) : py_scope.
Notation "' pat <- c ;; k" := (bind c (fun x => match x with pat => k end))
  (at level 61, pat pattern, c at next level, right associativity) : py_scope.
Open Scope py_scope.

(** ** The tensor operations transformer.py calls *)

Module torch.

Record Tensor : Type := mkTensor {
  shape : list nat;
  val : list nat -> R
}.

Definition rank (t : Tensor) : nat := List.length (shape t).

Fixpoint in_bounds (sh idx : list nat) : bool :=
  match sh, idx with
  | [], [] => true
  | d :: sh', i :: idx' => (i <? d)%nat && in_bounds sh' idx'
  | _, _ => false
  end.

(** [t[i0, i1, ...]] with one index per dimension. *)
Definition item (t : Tensor) (idx : list nat) : result R :=
  if in_bounds (shape t) idx then Ok (val t idx) else Raise IndexError.

(** [t.size(k)] *)
Definition size (t : Tensor) (k : nat) : result nat :=
  match nth_error (shape t) k with
  | Some d => Ok d
  | None => Raise IndexError
  end.

(** [torch.zeros] at a list of sizes *)
Definition zeros (dims : list Z) : result Tensor :=
  if forallb (fun d => 0 <=? d)%Z dims
  then Ok (mkTensor (map Z.to_nat dims) (fun _ => 0%R))
  else Raise RuntimeError.

(** [torch.arange(lo, hi, step)] for the positive steps the module uses.
    The elements are kept as the exact integers [lo + i * step]; the
    rounding of their conversion to float32 (above 2^24) is not modelled. *)
Definition arange (lo hi step : Z) : result Tensor :=
  if (step <=? 0)%Z then Raise RuntimeError
  else if (hi <? lo)%Z then Raise RuntimeError
  else Ok (mkTensor [Z.to_nat ((hi - lo + step - 1) / step)]
                    (fun idx => IZR (lo + Z.of_nat (nth 0 idx 0%nat) * step))).

(** [t.unsqueeze(dim)] *)
Definition unsqueeze (t : Tensor) (dim : nat) : result Tensor :=
  if (dim <=? rank t)%nat
  then Ok (mkTensor (firstn dim (shape t) ++ 1%nat :: skipn dim (shape t))
                    (fun idx => val t (firstn dim idx ++ skipn (S dim) idx)))
  else Raise IndexError.

(** Elementwise functions ([torch.sin], [torch.cos], [torch.exp]) and
    the product with a Python float, each read as the real function it
    rounds. *)
Definition pointwise (f : R -> R) (t : Tensor) : Tensor :=
  mkTensor (shape t) (fun idx => f (val t idx)).

Definition mul_scalar (t : Tensor) (c : R) : Tensor :=
  pointwise (fun x => x * c)%R t.

(** [torch.relu] *)
Definition relu (t : Tensor) : Tensor := pointwise (Rmax 0) t.

(** Broadcasting: shapes are aligned at their last dimension; two sizes
    are compatible when they are equal or one of them is 1. *)
Fixpoint broadcast_rev (a b : list nat) : option (list nat) :=
  match a, b with
  | [], _ => Some b
  | _, [] => Some a
  | x :: a', y :: b' =>
      match broadcast_rev a' b' with
      | None => None
      | Some r =>
          if (x =? y)%nat then Some (x :: r)
          else if (x =? 1)%nat then Some (y :: r)
          else if (y =? 1)%nat then Some (x :: r)
          else None
      end
  end.

Definition broadcast_shapes (a b : list nat) : option (list nat) :=
  option_map (@rev nat) (broadcast_rev (rev a) (rev b)).

(** The index into an operand of shape [sh] for the index [idx] of the
    broadcast result (both reversed): a dimension of size 1 is read at 0,
    a dimension the result index lacks is read at 0. *)
Fixpoint bidx_rev (sh idx : list nat) : list nat :=
  match sh with
  | [] => []
  | d :: sh' =>
      match idx with
      | [] => 0%nat :: bidx_rev sh' []
      | i :: idx' => (if (d =? 1)%nat then 0%nat else i) :: bidx_rev sh' idx'
      end
  end.

Definition bidx (sh idx : list nat) : list nat :=
  rev (bidx_rev (rev sh) (rev idx)).

Definition bval (t : Tensor) (idx : list nat) : R :=
  val t (bidx (shape t) idx).

Definition binop (f : R -> R -> R) (a b : Tensor) : result Tensor :=
  match broadcast_shapes (shape a) (shape b) with
  | Some sh => Ok (mkTensor sh (fun idx => f (bval a idx) (bval b idx)))
  | None => Raise RuntimeError
  end.

(** [a * b] and [a + b] on tensors. *)
Definition mul : Tensor -> Tensor -> result Tensor := binop Rmult.
Definition add : Tensor -> Tensor -> result Tensor := binop Rplus.

(** The source of an indexed assignment loses its leading dimensions of
    size 1 and is then expanded to the shape of the destination view. *)
Fixpoint strip_ones (sh : list nat) : list nat :=
  match sh with
  | 1%nat :: sh' => strip_ones sh'
  | _ => sh
  end.

Fixpoint expandable_rev (src dst : list nat) : bool :=
  match src, dst with
  | [], _ => true
  | _ :: _, [] => false
  | x :: src', y :: dst' =>
      ((x =? y)%nat || (x =? 1)%nat) && expandable_rev src' dst'
  end.

Definition expandable (src dst : list nat) : bool :=
  expandable_rev (rev (strip_ones src)) (rev dst).

(** Number of columns [start, start + step, ...] below [n]. *)
Definition stride_count (start step n : nat) : nat :=
  if (start <? n)%nat then (n - start + step - 1) / step else 0.

(** [dst[:, start::step] = src] *)
Definition setitem_cols (dst : Tensor) (start step : nat) (src : Tensor)
  : result Tensor :=
  match shape dst with
  | d0 :: d1 :: rest =>
      if expandable (shape src) (d0 :: stride_count start step d1 :: rest)
      then Ok (mkTensor (shape dst)
                (fun idx =>
                   match idx with
                   | i0 :: c :: more =>
                       if (start <=? c)%nat && ((c - start) mod step =? 0)%nat
                       then bval src (i0 :: (c - start) / step :: more)
                       else val dst idx
                   | _ => val dst idx
                   end))
      else Raise RuntimeError
  | _ => Raise IndexError
  end.

(** [t[:, :n]] *)
Definition slice_dim1 (t : Tensor) (n : nat) : result Tensor :=
  match shape t with
  | d0 :: d1 :: rest => Ok (mkTensor (d0 :: Nat.min n d1 :: rest) (val t))
  | _ => Raise IndexError
  end.

(** [torch.cat([a, b], dim=-1)]: equal shapes except in the last
    dimension. *)
Definition cat_last (a b : Tensor) : result Tensor :=
  match rev (shape a), rev (shape b) with
  | na :: ra, nb :: rb =>
      if list_eq_dec Nat.eq_dec ra rb
      then Ok (mkTensor (rev ((na + nb)%nat :: ra))
                (fun idx =>
                   match rev idx with
                   | k :: more =>
                       if (k <? na)%nat then val a idx
                       else val b (rev ((k - na)%nat :: more))
                   | [] => 0%R
                   end))
      else Raise RuntimeError
  | _, _ => Raise RuntimeError
  end.

End torch.

Import torch.

(** ** The layers the module takes from elsewhere *)

Class Framework : Type := {
  (** [nn.Linear(d_in, d_out)], [nn.Dropout(p)], [nn.LayerNorm(d, eps)]:
      a constructor can reject its arguments; a dropout layer stands for
      its action during one call (the identity in eval mode). *)
  nn_Linear : Z -> Z -> result (Tensor -> result Tensor);
  nn_Dropout : R -> result (Tensor -> Tensor);
  nn_LayerNorm : Z -> R -> result (Tensor -> result Tensor);
  nn_Dropout_shape :
    forall p dp, nn_Dropout p = Ok dp -> forall t, shape (dp t) = shape t;
  (** [gelu], [gelu_accurate] and [LinearGLUBlock(d_ff)] *)
  gelu : Tensor -> result Tensor;
  gelu_accurate : Tensor -> result Tensor;
  LinearGLUBlock : Z -> result (Tensor -> result Tensor);
  (** [MultiheadAttentionMechanism(kdim, qdim, adim, atype, n_heads,
      dropout)], its [reset()] and its call on key, value, query and mask,
      which returns the context, the attention weights and the module with
      its caches filled. *)
  Mha : Type;
  MultiheadAttentionMechanism :
    Z -> Z -> Z -> string -> Z -> R -> result Mha;
  mha_reset : Mha -> Mha;
  mha_call : Mha -> option Tensor -> option Tensor -> Tensor ->
             option Tensor -> result (Tensor * Tensor * Mha)
}.

(** ** class PositionalEncoding *)

Module PositionalEncoding.
Section WithFramework.
Context {fw : Framework}.

Record t : Type := mk {
  d_model : Z;
  pe_type : string;
  pe : option Tensor;
  dropout : option (Tensor -> Tensor)
}.

Definition default_max_len : Z := 5000.

Definition __init__ (d_model : Z) (dropout : R) (pe_type : string)
           (max_len : Z) : result t :=
  if negb (pe_type =? "none")%string then
    pe <- zeros [max_len; d_model] ;;
    ar <- arange 0 max_len 1 ;;
    position <- unsqueeze ar 1 ;;
    ar2 <- arange 0 d_model 2 ;;
    c <- truediv (math_log 10000) d_model ;;
    let div_term := pointwise exp (mul_scalar ar2 (- c)) in
    angle <- mul position div_term ;;
    pe <- setitem_cols pe 0 2 (pointwise sin angle) ;;
    angle <- mul position div_term ;;
    pe <- setitem_cols pe 1 2 (pointwise cos angle) ;;
    pe <- unsqueeze pe 0 ;;
    dp <- nn_Dropout dropout ;;
    Ok (mk d_model pe_type (Some pe) (Some dp))
  else
    Ok (mk d_model pe_type None None).

Definition forward (self : t) (xs : Tensor) : result Tensor :=
  s <- math_sqrt (d_model self) ;;
  let xs := mul_scalar xs s in
  if (pe_type self =? "none")%string then Ok xs
  else if (pe_type self =? "add")%string then
    table <- getattr "pe" (pe self) ;;
    n <- size xs 1 ;;
    sl <- slice_dim1 table n ;;
    xs <- add xs sl ;;
    dp <- getattr "dropout" (dropout self) ;;
    Ok (dp xs)
  else if (pe_type self =? "concat")%string then
    table <- getattr "pe" (pe self) ;;
    n <- size xs 1 ;;
    sl <- slice_dim1 table n ;;
    xs <- cat_last xs sl ;;
    dp <- getattr "dropout" (dropout self) ;;
    Ok (dp xs)
  else Raise (NotImplementedError (Some (pe_type self))).

End WithFramework.
End PositionalEncoding.

(** ** class PositionwiseFeedForward *)

Module PositionwiseFeedForward.
Section WithFramework.
Context {fw : Framework}.

Record t : Type := mk {
  w_1 : Tensor -> result Tensor;
  w_2 : Tensor -> result Tensor;
  dropout : Tensor -> Tensor;
  nonlinear : Tensor -> result Tensor
}.

Definition default_nonlinear : string := "relu".

Definition __init__ (d_in d_ff d_out : Z) (dropout : R) (nonlinear : string)
  : result t :=
  w_1 <- nn_Linear d_in d_ff ;;
  w_2 <- nn_Linear d_ff d_out ;;
  dp <- nn_Dropout dropout ;;
  if (nonlinear =? "relu")%string then
    Ok (mk w_1 w_2 dp (fun x => Ok (relu x)))
  else if (nonlinear =? "gelu")%string then
    Ok (mk w_1 w_2 dp (fun x => gelu x))
  else if (nonlinear =? "gelu_accurate")%string then
    Ok (mk w_1 w_2 dp (fun x => gelu_accurate x))
  else if (nonlinear =? "glu")%string then
    glu <- LinearGLUBlock d_ff ;;
    Ok (mk w_1 w_2 dp glu)
  else Raise (NotImplementedError (Some nonlinear)).

Definition forward (self : t) (xs : Tensor) : result Tensor :=
  h <- w_1 self xs ;;
  h <- nonlinear self h ;;
  w_2 self (dropout self h).

End WithFramework.
End PositionwiseFeedForward.

(** ** class TransformerEncoderBlock *)

Module TransformerEncoderBlock.
Section WithFramework.
Context {fw : Framework}.

Record t : Type := mk {
  n_heads : Z;
  norm1 : Tensor -> result Tensor;
  self_attn : Mha;
  dropout1 : Tensor -> Tensor;
  norm2 : Tensor -> result Tensor;
  feed_forward : PositionwiseFeedForward.t;
  dropout2 : Tensor -> Tensor
}.

Definition set_self_attn (self : t) (a : Mha) : t :=
  mk (n_heads self) (norm1 self) a (dropout1 self) (norm2 self)
     (feed_forward self) (dropout2 self).

Definition __init__ (d_model d_ff : Z) (atype : string) (n_heads : Z)
           (dropout dropout_att layer_norm_eps : R) (ffn_nonlinear : string)
  : result t :=
  norm1 <- nn_LayerNorm d_model layer_norm_eps ;;
  self_attn <- MultiheadAttentionMechanism d_model d_model d_model atype
                 n_heads dropout_att ;;
  dropout1 <- nn_Dropout dropout ;;
  norm2 <- nn_LayerNorm d_model layer_norm_eps ;;
  feed_forward <- PositionwiseFeedForward.__init__ d_model d_ff d_model
                    dropout ffn_nonlinear ;;
  dropout2 <- nn_Dropout dropout ;;
  Ok (mk n_heads norm1 self_attn dropout1 norm2 feed_forward dropout2).

(** Returns [xs], [xx_aws] and the block with its attention caches as the
    call leaves them. *)
Definition forward (self : t) (xs : Tensor) (xx_mask : option Tensor)
  : result (Tensor * Tensor * t) :=
  let attn := mha_reset (self_attn self) in
  let residual := xs in
  xs <- norm1 self xs ;;
  ' (xs, xx_aws, attn) <- mha_call attn (Some xs) (Some xs) xs xx_mask ;;
  xs <- add (dropout1 self xs) residual ;;
  let residual := xs in
  xs <- norm2 self xs ;;
  ff <- PositionwiseFeedForward.forward (feed_forward self) xs ;;
  xs <- add (dropout2 self ff) residual ;;
  Ok (xs, xx_aws, set_self_attn self attn).

End WithFramework.
End TransformerEncoderBlock.

(** ** class TransformerDecoderBlock *)

Module TransformerDecoderBlock.
Section WithFramework.
Context {fw : Framework}.

Record t : Type := mk {
  atype : string;
  n_heads : Z;
  src_tgt_attention : bool;
  norm1 : Tensor -> result Tensor;
  self_attn : Mha;
  dropout1 : Tensor -> Tensor;
  norm2 : option (Tensor -> result Tensor);
  src_attn : option Mha;
  dropout2 : option (Tensor -> Tensor);
  norm3 : Tensor -> result Tensor;
  feed_forward : PositionwiseFeedForward.t;
  dropout3 : Tensor -> Tensor
}.

Definition set_attn (self : t) (a : Mha) (s : option Mha) : t :=
  mk (atype self) (n_heads self) (src_tgt_attention self) (norm1 self) a
     (dropout1 self) (norm2 self) s (dropout2 self) (norm3 self)
     (feed_forward self) (dropout3 self).

Definition default_src_tgt_attention : bool := true.

Definition __init__ (d_model d_ff : Z) (atype : string) (n_heads : Z)
           (dropout dropout_att layer_norm_eps : R) (ffn_nonlinear : string)
           (src_tgt_attention : bool) : result t :=
  if (atype =? "average")%string then Raise (NotImplementedError None)
  else
    norm1 <- nn_LayerNorm d_model layer_norm_eps ;;
    self_attn <- MultiheadAttentionMechanism d_model d_model d_model atype
                   n_heads dropout_att ;;
    dropout1 <- nn_Dropout dropout ;;
    ' (norm2, src_attn, dropout2) <-
      (if src_tgt_attention then
         norm2 <- nn_LayerNorm d_model layer_norm_eps ;;
         src_attn <- MultiheadAttentionMechanism d_model d_model d_model
                       atype n_heads dropout_att ;;
         dropout2 <- nn_Dropout dropout ;;
         Ok (Some norm2, Some src_attn, Some dropout2)
       else Ok (None, None, None)) ;;
    norm3 <- nn_LayerNorm d_model layer_norm_eps ;;
    feed_forward <- PositionwiseFeedForward.__init__ d_model d_ff d_model
                      dropout ffn_nonlinear ;;
    dropout3 <- nn_Dropout dropout ;;
    Ok (mk atype n_heads src_tgt_attention norm1 self_attn dropout1
           norm2 src_attn dropout2 norm3 feed_forward dropout3).

(** Returns [ys], [yy_aw], [xy_aw] and the block as the call leaves it. *)
Definition forward (self : t) (ys : Tensor) (yy_mask : option Tensor)
           (xs : option Tensor) (xy_mask : option Tensor)
  : result (Tensor * Tensor * option Tensor * t) :=
  if (atype self =? "average")%string then Raise (NotImplementedError None)
  else
    let attn := mha_reset (self_attn self) in
    _ys <- norm1 self ys ;;
    ' (_ys, yy_aw, attn) <- mha_call attn (Some _ys) (Some _ys) _ys yy_mask ;;
    ys <- add (dropout1 self _ys) ys ;;
    ' (ys, xy_aw, src) <-
      (if src_tgt_attention self then
         src <- getattr "src_attn" (src_attn self) ;;
         let src := mha_reset src in
         norm2 <- getattr "norm2" (norm2 self) ;;
         _ys <- norm2 ys ;;
         ' (_ys, xy_aw, src) <- mha_call src xs xs _ys xy_mask ;;
         dropout2 <- getattr "dropout2" (dropout2 self) ;;
         ys <- add (dropout2 _ys) ys ;;
         Ok (ys, Some xy_aw, Some src)
       else Ok (ys, None, src_attn self)) ;;
    _ys <- norm3 self ys ;;
    _ys <- PositionwiseFeedForward.forward (feed_forward self) _ys ;;
    ys <- add (dropout3 self _ys) ys ;;
    Ok (ys, yy_aw, xy_aw, set_attn self attn src).

End WithFramework.
End TransformerDecoderBlock.

(** ** test_attention.py: the training loop of [TestAttention.check]

    The model, its optimizer and the evaluation helpers live outside the
    two files at hand; the loop is embedded over their interface.  Printing
    is kept as the list of label error rates the loop reports. *)

Module TestAttention.

Definition Qltb (a b : Q) : bool := negb (Qle_bool b a).

Record Driver : Type := {
  Model : Type;
  (** zero_grad, forward, backward, clip_grad_norm and optimizer.step():
      the updated model and the loss *)
  update : Model -> Model * Q;
  (** [model.weight_noise_injection = True] *)
  inject_noise : Model -> Model;
  (** decode with beam width 2 and score the first utterance *)
  decode_ler : Model -> Q;
  (** [lr_controller.decay_lr(optimizer, learning_rate, epoch, value)] *)
  decay_lr : Model -> Q -> nat -> Q -> Model * Q
}.

Record Run (M : Type) : Type := mkRun {
  model : M;
  learning_rate : Q;
  n_updates : nat;        (* calls of optimizer.step() so far *)
  lers : list Q;          (* reported error rates, latest first *)
  converged : bool        (* left the loop by [break] *)
}.

Definition max_step : nat := 1000.

(** [for step in steps: ...] *)
Fixpoint train (D : Driver) (steps : list nat) (r : Run (Model D))
  : Run (Model D) :=
  match steps with
  | [] => r
  | step :: rest =>
      let (m, loss) := update D (model r) in
      let m := if Qltb loss (50 # 1) then inject_noise D m else m in
      let n := S (n_updates r) in
      if ((step + 1) mod 10 =? 0)%nat then
        let ler := decode_ler D m in
        if Qltb ler (1 # 10)
        then mkRun m (learning_rate r) n (ler :: lers r) true
        else
          let (m, lr) := decay_lr D m (learning_rate r) step ler in
          train D rest (mkRun m lr n (ler :: lers r) false)
      else train D rest (mkRun m (learning_rate r) n (lers r) false)
  end.

(** The body of [check] from "Train model" on; the test method passes
    when the call returns without an exception. *)
Definition check (D : Driver) (m0 : Model D) : result (Run (Model D)) :=
  let learning_rate := (1 # 1000)%Q in
  Ok (train D (seq 0 max_step) (mkRun m0 learning_rate 0 [] false)).

End TestAttention.

(** ** The positional encoding table

    [angle d pos i] is the argument the module computes, in log space, for
    position [pos] and the column pair [2i, 2i+1]. *)

Definition angle (d : Z) (pos i : nat) : R :=
  (INR pos * exp (INR (2 * i) * - (ln 10000 / IZR d)))%R.

(** The sine slice [pe[:, 0::2]] and the cosine slice [pe[:, 1::2]] of a
    table with [D] columns have [(D+1)/2] and [D/2] columns; the assigned
    tensor has [(D+1)/2] columns and fits a slice of as many columns, or
    any slice when it has one column. *)
Definition columns_match (D : nat) : bool :=
  (((D + 1) / 2 =? D / 2)%nat || ((D + 1) / 2 =? 1)%nat).

(** ** A small instance of the layers

    Every layer is the identity map: linear layers with identity weights,
    dropout in eval mode, attention that returns its query.  It is the
    instance at which the statements below are evaluated on concrete
    inputs. *)

Definition identity_layer : Tensor -> result Tensor := fun x => Ok x.

#[export] Instance identity_layers : Framework := {|
  nn_Linear := fun _ _ => Ok identity_layer;
  nn_Dropout := fun _ => Ok (fun x => x);
  nn_LayerNorm := fun _ _ => Ok identity_layer;
  nn_Dropout_shape := fun p dp H t =>
    match H in (_ = r) return
          (match r with Ok f => shape (f t) = shape t | Raise _ => True end)
    with eq_refl => eq_refl end;
  gelu := identity_layer;
  gelu_accurate := identity_layer;
  LinearGLUBlock := fun _ => Ok identity_layer;
  Mha := unit;
  MultiheadAttentionMechanism := fun _ _ _ _ _ _ => Ok tt;
  mha_reset := fun m => m;
  mha_call := fun m _ _ q _ => Ok (q, q, m)
|}.

(** The configuration values each module knows. *)

Definition supported_pe_type (pt : string) : bool :=
  ((pt =? "none") || (pt =? "add") || (pt =? "concat"))%string.

Definition supported_nonlinear (nl : string) : bool :=
  ((nl =? "relu") || (nl =? "gelu") || (nl =? "gelu_accurate")
   || (nl =? "glu"))%string.

(** Modules built over [identity_layers], for the concrete instances of the
    statements. *)

Definition pe_add_4_8 : PositionalEncoding.t :=
  get (PositionalEncoding.__init__ 4 0%R "add" 8)
      (PositionalEncoding.mk 0 "none" None None).

Definition ones_2_3_4 : Tensor := mkTensor [2; 3; 4]%nat (fun _ => 1%R).

Definition ffn_identity : PositionwiseFeedForward.t :=
  PositionwiseFeedForward.mk identity_layer identity_layer (fun x => x)
    identity_layer.

Definition encoder_4_8 : TransformerEncoderBlock.t :=
  get (TransformerEncoderBlock.__init__ 4 8 "scaled_dot" 2 0%R 0%R 0%R "relu")
      (TransformerEncoderBlock.mk 0 identity_layer tt (fun x => x)
         identity_layer ffn_identity (fun x => x)).

Definition decoder_4_8 : TransformerDecoderBlock.t :=
  get (TransformerDecoderBlock.__init__ 4 8 "scaled_dot" 2 0%R 0%R 0%R "relu"
         false)
      (TransformerDecoderBlock.mk "" 0 true identity_layer tt (fun x => x)
         None None None identity_layer ffn_identity (fun x => x)).

(** Drivers for the training loop: one whose error rate grows with every
    update, one whose error rate is the inverse of the number of updates. *)

Definition rising_driver : TestAttention.Driver := {|
  TestAttention.Model := nat;
  TestAttention.update := fun m => (S m, (100 # 1)%Q);
  TestAttention.inject_noise := fun m => m;
  TestAttention.decode_ler := fun m => (Z.of_nat m # 1)%Q;
  TestAttention.decay_lr := fun m lr _ _ => (m, lr)
|}.


(** An error rate that does not end the loop, and a list of error rates
    (oldest first) that grows at every evaluation. *)

Definition not_converging (ler : Q) : Prop :=
  TestAttention.Qltb ler (1 # 10) = false.


(** The table of [pe_add_4_8]. *)

Definition table_4_8 : Tensor :=
  match PositionalEncoding.pe pe_add_4_8 with
  | Some t => t
  | None => ones_2_3_4
  end.

(** ** Properties of the tensor operations *)

Section TensorFacts.

Lemma expandable_2 (L c k : nat) :
  expandable [L; c] [L; k] = ((c =? k)%nat || (c =? 1)%nat).
Proof.
  unfold expandable.
  destruct L as [|[|L]]; destruct c as [|[|c]];
    cbn [strip_ones rev app expandable_rev];
    rewrite ?Nat.eqb_refl, ?andb_true_r, ?orb_true_r, ?orb_true_l;
    reflexivity.
Qed.

Lemma broadcast_col_row (L c : nat) :
  broadcast_shapes [L; 1%nat] [c] = Some [L; c].
Proof.
  unfold broadcast_shapes. cbn.
  destruct c as [|[|c]]; reflexivity.
Qed.

Lemma bcast_index (a i : nat) :
  (i < a)%nat -> (if (a =? 1)%nat then 0%nat else i) = i.
Proof.
  intros H. destruct (Nat.eqb_spec a 1); lia.
Qed.

Lemma stride_count_even (D : nat) :
  (0 < D)%nat -> stride_count 0 2 D = ((D + 1) / 2)%nat.
Proof.
  intros H. unfold stride_count.
  destruct (Nat.ltb_spec 0 D); [f_equal; lia | lia].
Qed.

Lemma stride_count_odd (D : nat) : stride_count 1 2 D = (D / 2)%nat.
Proof.
  unfold stride_count. destruct (Nat.ltb_spec 1 D).
  - f_equal. lia.
  - destruct D as [|[|D]]; try reflexivity. lia.
Qed.

Lemma zeros_2 (a b : Z) :
  (0 <= a)%Z -> (0 <= b)%Z ->
  zeros [a; b] = Ok (mkTensor [Z.to_nat a; Z.to_nat b] (fun _ => 0%R)).
Proof.
  intros Ha Hb. unfold zeros. cbn [forallb].
  apply Z.leb_le in Ha, Hb. rewrite Ha, Hb. reflexivity.
Qed.

Lemma zeros_2_negative (a b : Z) :
  (a < 0 \/ b < 0)%Z -> zeros [a; b] = Raise RuntimeError.
Proof.
  intros H. unfold zeros. cbn [forallb].
  destruct (Z.leb_spec 0 a); destruct (Z.leb_spec 0 b); try reflexivity; lia.
Qed.

Lemma arange_from_0 (hi step : Z) :
  (0 < step)%Z -> (0 <= hi)%Z ->
  arange 0 hi step =
  Ok (mkTensor [Z.to_nat ((hi - 0 + step - 1) / step)]
               (fun idx => IZR (0 + Z.of_nat (nth 0 idx 0%nat) * step))).
Proof.
  intros Hs Hh. unfold arange.
  destruct (Z.leb_spec step 0); [lia|].
  destruct (Z.ltb_spec hi 0); [lia|]. reflexivity.
Qed.

Lemma arange_len_1 (n : Z) : Z.to_nat ((n - 0 + 1 - 1) / 1) = Z.to_nat n.
Proof. rewrite Z.div_1_r. f_equal. lia. Qed.

Lemma arange_len_2 (n : Z) :
  (0 <= n)%Z -> Z.to_nat ((n - 0 + 2 - 1) / 2) = ((Z.to_nat n + 1) / 2)%nat.
Proof.
  intros Hn. rewrite <- (Z2Nat.id n) at 1 by lia.
  replace (Z.of_nat (Z.to_nat n) - 0 + 2 - 1)%Z
    with (Z.of_nat (Z.to_nat n + 1)) by lia.
  change 2%Z with (Z.of_nat 2).
  rewrite <- Nat2Z.inj_div. apply Nat2Z.id.
Qed.

(** A column [L, 1] times a row [c]: the outer product. *)
Lemma mul_col_row (a b : Tensor) (L c : nat) :
  shape a = [L; 1%nat] -> shape b = [c] ->
  exists r, mul a b = Ok r /\ shape r = [L; c] /\
    forall i j, (i < L)%nat -> (j < c)%nat ->
      val r [i; j] = (val a [i; 0%nat] * val b [j])%R.
Proof.
  intros Ha Hb. unfold mul, binop. rewrite Ha, Hb, broadcast_col_row.
  eexists. split; [reflexivity|]. split; [reflexivity|].
  intros i j Hi Hj. cbn [val]. unfold bval, bidx. rewrite Ha, Hb.
  cbn [rev app bidx_rev Nat.eqb].
  now rewrite (bcast_index Hi), (bcast_index Hj).
Qed.

(** [dst[:, start::step] = src] on a matrix: it succeeds exactly when the
    source has as many columns as the slice, or one column. *)
Lemma setitem_cols_matrix (dst src : Tensor) (L D c start step : nat) :
  shape dst = [L; D] -> shape src = [L; c] ->
  setitem_cols dst start step src =
  if ((c =? stride_count start step D)%nat || (c =? 1)%nat)
  then Ok (mkTensor [L; D]
            (fun idx =>
               match idx with
               | i0 :: k :: more =>
                   if (start <=? k)%nat && ((k - start) mod step =? 0)%nat
                   then bval src (i0 :: (k - start) / step :: more)
                   else val dst idx
               | _ => val dst idx
               end))
  else Raise RuntimeError.
Proof.
  intros Hd Hs. unfold setitem_cols. rewrite Hd, Hs, expandable_2.
  reflexivity.
Qed.

Lemma bval_matrix (t : Tensor) (L c i j : nat) :
  shape t = [L; c] -> (i < L)%nat -> (j < c)%nat ->
  bval t [i; j] = val t [i; j].
Proof.
  intros Ht Hi Hj. unfold bval, bidx. rewrite Ht.
  cbn [rev app bidx_rev].
  now rewrite (bcast_index Hi), (bcast_index Hj).
Qed.

End TensorFacts.

(** ** PositionalEncoding: what the constructor builds *)

Section PositionalEncodingFacts.
Context {fw : Framework}.

Lemma PE_init_none (d ml : Z) (p : R) :
  PositionalEncoding.__init__ d p "none" ml =
  Ok (PositionalEncoding.mk d "none" None None).
Proof. reflexivity. Qed.

Lemma div2_double (q : nat) : ((2 * q) / 2 = q)%nat.
Proof. rewrite Nat.mul_comm. apply Nat.div_mul. lia. Qed.

Lemma div2_double_1 (q : nat) : ((2 * q + 1) / 2 = q)%nat.
Proof. rewrite Nat.mul_comm, Nat.div_add_l by lia. cbn. lia. Qed.

Lemma mod2_double (q : nat) : ((2 * q) mod 2 = 0)%nat.
Proof.
  pose proof (Nat.div_mod_eq (2 * q) 2) as H.
  rewrite div2_double in H. lia.
Qed.

Lemma mod2_double_1 (q : nat) : ((2 * q + 1) mod 2 = 1)%nat.
Proof.
  pose proof (Nat.div_mod_eq (2 * q + 1) 2) as H.
  rewrite div2_double_1 in H. lia.
Qed.

Lemma columns_match_iff (d : Z) :
  (0 < d)%Z ->
  columns_match (Z.to_nat d) = true <-> (Z.even d = true \/ d = 1%Z).
Proof.
  intros Hd. unfold columns_match.
  destruct (Z.Even_or_Odd d) as [[q Hq]|[q Hq]].
  - replace (Z.to_nat d) with (2 * Z.to_nat q)%nat by lia.
    rewrite div2_double_1, div2_double, Nat.eqb_refl. cbn [orb].
    split; [intros _; left | reflexivity].
    apply Z.even_spec. now exists q.
  - replace (Z.to_nat d) with (2 * Z.to_nat q + 1)%nat by lia.
    replace (2 * Z.to_nat q + 1 + 1)%nat with (2 * (Z.to_nat q + 1))%nat
      by lia.
    rewrite div2_double_1, div2_double, orb_true_iff, !Nat.eqb_eq.
    assert (Ho : Z.even d = false).
    { rewrite <- Z.negb_odd. apply negb_false_iff, Z.odd_spec. now exists q. }
    rewrite Ho. split; [intros [H|H]; right; lia | intros [H|H]; [discriminate | right; lia]].
Qed.

Lemma PE_init_mismatch (d ml : Z) (p : R) (pt : string) :
  (pt =? "none")%string = false -> (0 <= ml)%Z -> (0 < d)%Z ->
  columns_match (Z.to_nat d) = false ->
  PositionalEncoding.__init__ d p pt ml = Raise RuntimeError.
Proof.
  intros Hpt Hml Hd Hc.
  unfold PositionalEncoding.__init__. rewrite Hpt. cbn [negb].
  rewrite zeros_2, !arange_from_0 by lia. cbn [bind].
  rewrite arange_len_1, arange_len_2 by lia.
  unfold unsqueeze, rank. cbn [shape List.length Nat.leb bind firstn skipn app].
  unfold truediv. destruct (Z.eqb_spec d 0); [lia|]. cbn [bind].
  match goal with |- context [mul ?a ?b] =>
    destruct (@mul_col_row a b (Z.to_nat ml) ((Z.to_nat d + 1) / 2))
      as (ang & -> & Hsh & _); [reflexivity | reflexivity |] end.
  cbn [bind].
  rewrite (@setitem_cols_matrix _ _ (Z.to_nat ml) (Z.to_nat d)
             ((Z.to_nat d + 1) / 2)) by (cbn [shape pointwise]; auto).
  rewrite stride_count_even, Nat.eqb_refl by lia. cbn [orb bind].
  rewrite (@setitem_cols_matrix _ _ (Z.to_nat ml) (Z.to_nat d)
             ((Z.to_nat d + 1) / 2)) by (cbn [shape pointwise]; auto).
  rewrite stride_count_odd. unfold columns_match in Hc. rewrite Hc.
  reflexivity.
Qed.

Lemma PE_init_table (d ml : Z) (p : R) (pt : string) :
  (pt =? "none")%string = false -> (0 <= ml)%Z -> (0 < d)%Z ->
  columns_match (Z.to_nat d) = true ->
  exists table,
    PositionalEncoding.__init__ d p pt ml =
      (dp <- nn_Dropout p ;;
       Ok (PositionalEncoding.mk d pt (Some table) (Some dp))) /\
    shape table = [1%nat; Z.to_nat ml; Z.to_nat d] /\
    forall pos k, (pos < Z.to_nat ml)%nat -> (k < Z.to_nat d)%nat ->
      val table [0%nat; pos; k] =
      if Nat.even k then sin (angle d pos (k / 2))
      else cos (angle d pos (k / 2)).
Proof.
  intros Hpt Hml Hd Hc.
  unfold PositionalEncoding.__init__. rewrite Hpt. cbn [negb].
  rewrite zeros_2, !arange_from_0 by lia. cbn [bind].
  rewrite arange_len_1, arange_len_2 by lia.
  unfold unsqueeze, rank. cbn [shape List.length Nat.leb bind firstn skipn app].
  unfold truediv. destruct (Z.eqb_spec d 0); [lia|]. cbn [bind].
  match goal with |- context [mul ?a ?b] =>
    destruct (@mul_col_row a b (Z.to_nat ml) ((Z.to_nat d + 1) / 2))
      as (ang & -> & Hsh & Hang); [reflexivity | reflexivity |] end.
  cbn [bind].
  rewrite (@setitem_cols_matrix _ _ (Z.to_nat ml) (Z.to_nat d)
             ((Z.to_nat d + 1) / 2)) by (cbn [shape pointwise]; auto).
  rewrite stride_count_even, Nat.eqb_refl by lia. cbn [orb bind].
  rewrite (@setitem_cols_matrix _ _ (Z.to_nat ml) (Z.to_nat d)
             ((Z.to_nat d + 1) / 2)) by (cbn [shape pointwise]; auto).
  rewrite stride_count_odd. unfold columns_match in Hc. rewrite Hc.
  cbn [bind shape List.length Nat.leb firstn skipn app].
  eexists. split; [reflexivity|]. split; [reflexivity|].
  assert (Hang' : forall i j, (i < Z.to_nat ml)%nat ->
                    (j < (Z.to_nat d + 1) / 2)%nat ->
                    val ang [i; j] = angle d i j).
  { intros i j Hi Hj. rewrite Hang by assumption.
    cbn [val pointwise mul_scalar firstn skipn app nth].
    unfold angle, math_log. rewrite !INR_IZR_INZ.
    do 2 f_equal; [f_equal; lia | do 2 f_equal; lia]. }
  clear Hang.
  intros pos k Hpos Hk. cbn [val skipn firstn app].
  change (match k with 0%nat => false | S _ => true end) with (1 <=? k)%nat.
  destruct (Nat.Even_or_Odd k) as [[q ->]|[q ->]].
  - rewrite Nat.even_even, div2_double.
    assert (Hq : (q < (Z.to_nat d + 1) / 2)%nat).
    { apply Nat.div_le_lower_bound; lia. }
    replace ((1 <=? 2 * q)%nat && ((2 * q - 1) mod 2 =? 0)%nat) with false.
    2:{ destruct q as [|q]; [reflexivity|].
        replace (2 * S q - 1)%nat with (2 * q + 1)%nat by lia.
        rewrite mod2_double_1. symmetry. apply andb_false_r. }
    rewrite Nat.sub_0_r, mod2_double, div2_double. cbn [andb Nat.eqb].
    rewrite (@bval_matrix _ (Z.to_nat ml) ((Z.to_nat d + 1) / 2))
      by (cbn [shape pointwise]; auto).
    cbn [val pointwise]. now rewrite Hang'.
  - rewrite Nat.even_odd, div2_double_1.
    assert (Hq : (q < (Z.to_nat d + 1) / 2)%nat).
    { apply Nat.div_le_lower_bound; lia. }
    replace (2 * q + 1 - 1)%nat with (2 * q)%nat by lia.
    rewrite mod2_double, div2_double.
    replace (1 <=? 2 * q + 1)%nat with true
      by (symmetry; apply Nat.leb_le; lia).
    cbn [andb Nat.eqb].
    rewrite (@bval_matrix _ (Z.to_nat ml) ((Z.to_nat d + 1) / 2))
      by (cbn [shape pointwise]; auto).
    cbn [val pointwise]. now rewrite Hang'.
Qed.

End PositionalEncodingFacts.

Section PositionalEncodingOutcome.
Context {fw : Framework}.

Lemma PE_init_negative (d ml : Z) (p : R) (pt : string) :
  (pt =? "none")%string = false -> (ml < 0 \/ d < 0)%Z ->
  PositionalEncoding.__init__ d p pt ml = Raise RuntimeError.
Proof.
  intros Hpt H. unfold PositionalEncoding.__init__. rewrite Hpt. cbn [negb].
  now rewrite zeros_2_negative.
Qed.

Lemma PE_init_zero (ml : Z) (p : R) (pt : string) :
  (pt =? "none")%string = false -> (0 <= ml)%Z ->
  PositionalEncoding.__init__ 0 p pt ml = Raise ZeroDivisionError.
Proof.
  intros Hpt H. unfold PositionalEncoding.__init__. rewrite Hpt. cbn [negb].
  rewrite zeros_2, !arange_from_0 by lia. reflexivity.
Qed.

(** Every way the constructor can return a module with a table. *)
Lemma PE_init_ok_inv (d ml : Z) (p : R) (pt : string)
      (m : PositionalEncoding.t) :
  (pt =? "none")%string = false ->
  PositionalEncoding.__init__ d p pt ml = Ok m ->
  (0 <= ml)%Z /\ (0 < d)%Z /\ columns_match (Z.to_nat d) = true /\
  exists table dp,
    nn_Dropout p = Ok dp /\
    m = PositionalEncoding.mk d pt (Some table) (Some dp) /\
    shape table = [1%nat; Z.to_nat ml; Z.to_nat d] /\
    forall pos k, (pos < Z.to_nat ml)%nat -> (k < Z.to_nat d)%nat ->
      val table [0%nat; pos; k] =
      if Nat.even k then sin (angle d pos (k / 2))
      else cos (angle d pos (k / 2)).
Proof.
  intros Hpt Hok.
  destruct (Z.lt_ge_cases ml 0) as [Hml|Hml];
    [rewrite PE_init_negative in Hok by auto; discriminate|].
  destruct (Z.lt_ge_cases d 0) as [Hd|Hd];
    [rewrite PE_init_negative in Hok by auto; discriminate|].
  destruct (Z.eq_dec d 0) as [->|Hd0];
    [rewrite PE_init_zero in Hok by auto; discriminate|].
  destruct (columns_match (Z.to_nat d)) eqn:Hc;
    [|rewrite PE_init_mismatch in Hok by (auto; lia); discriminate].
  destruct (@PE_init_table _ d ml p pt Hpt Hml ltac:(lia) Hc)
    as (table & Hinit & Hsh & Hval).
  rewrite Hinit in Hok.
  destruct (nn_Dropout p) as [dp|e] eqn:Hdp; [|discriminate].
  cbn [bind] in Hok. injection Hok as <-.
  repeat split; try lia.
  exists table, dp. repeat split; assumption.
Qed.

Lemma in_bounds_3 (a b c i j k : nat) :
  (i < a)%nat -> (j < b)%nat -> (k < c)%nat ->
  in_bounds [a; b; c] [i; j; k] = true.
Proof.
  intros Hi Hj Hk. cbn [in_bounds].
  apply Nat.ltb_lt in Hi, Hj, Hk. now rewrite Hi, Hj, Hk.
Qed.

End PositionalEncodingOutcome.

(** ** The claims on PositionalEncoding *)

(** C10, as stated, fails at [d_model = 1]: the cosine slice is empty and
    the single assigned column is broadcast to it, so the construction
    succeeds although [d_model] is odd. *)
Lemma C10_d_model_1_constructs :
  Z.odd 1 = true /\
  is_ok (PositionalEncoding.__init__ (fw := identity_layers)
           1 (1 / 10)%R "add" PositionalEncoding.default_max_len) = true.
Proof. split; vm_compute; reflexivity. Qed.

(** C10 (amended). Constructing PositionalEncoding with [pe_type] other
    than 'none' succeeds only when [d_model] is even or [d_model = 1]: for
    every odd [d_model >= 3] the construction fails with the shape error of
    the cosine assignment, whose slice [pe[:, 1::2]] has [floor(d_model/2)]
    columns while the assigned tensor has [ceil(d_model/2) > 1] columns. *)
Theorem C10_constructs_only_even_or_one (fw : Framework) (d ml : Z) (p : R)
        (pt : string) :
  (pt =? "none")%string = false ->
  (forall m, PositionalEncoding.__init__ d p pt ml = Ok m ->
             Z.even d = true \/ d = 1%Z) /\
  (Z.odd d = true -> (3 <= d)%Z ->
   PositionalEncoding.__init__ d p pt ml = Raise RuntimeError /\
   stride_count 1 2 (Z.to_nat d) = (Z.to_nat d / 2)%nat /\
   ((Z.to_nat d + 1) / 2 = Z.to_nat d / 2 + 1)%nat /\
   (1 < (Z.to_nat d + 1) / 2)%nat).
Proof.
  intros Hpt. split.
  - intros m Hok.
    destruct (PE_init_ok_inv _ _ _ _ Hpt Hok) as (_ & Hd & Hc & _).
    now apply columns_match_iff.
  - intros Hodd Hd.
    assert (Hc : columns_match (Z.to_nat d) = false).
    { destruct (columns_match (Z.to_nat d)) eqn:Hc; [|reflexivity].
      apply columns_match_iff in Hc; [|lia].
      rewrite <- Z.negb_odd, Hodd in Hc. destruct Hc as [Hc|Hc];
        [discriminate | lia]. }
    split.
    + destruct (Z.lt_ge_cases ml 0) as [Hml|Hml].
      * apply PE_init_negative; auto.
      * apply PE_init_mismatch; auto; lia.
    + split; [apply stride_count_odd|].
      apply Z.odd_spec in Hodd. destruct Hodd as [q Hq].
      replace (Z.to_nat d) with (2 * Z.to_nat q + 1)%nat by lia.
      replace (2 * Z.to_nat q + 1 + 1)%nat with (2 * (Z.to_nat q + 1))%nat
        by lia.
      rewrite div2_double, div2_double_1. lia.
Qed.

Lemma C10_constructs_only_even_or_one_witness :
  PositionalEncoding.__init__ (fw := identity_layers) 3 (1 / 10)%R "add" 5000
  = Raise RuntimeError.
Proof.
  apply (proj2 (@C10_constructs_only_even_or_one identity_layers 3 5000
                  (1 / 10)%R "add" eq_refl)).
  - reflexivity.
  - lia.
Defined.

Section ForwardAdd.
Context {fw : Framework}.

Lemma broadcast_batch (B T D : nat) :
  broadcast_shapes [B; T; D] [1%nat; T; D] = Some [B; T; D].
Proof.
  unfold broadcast_shapes. cbn [rev app broadcast_rev].
  rewrite !Nat.eqb_refl.
  destruct (B =? 1)%nat eqn:HB; [apply Nat.eqb_eq in HB; subst|];
    reflexivity.
Qed.

Lemma add_batch (a b : Tensor) (B T D : nat) :
  shape a = [B; T; D] -> shape b = [1%nat; T; D] ->
  exists s, add a b = Ok s /\ shape s = [B; T; D] /\
    forall i t k, (i < B)%nat -> (t < T)%nat -> (k < D)%nat ->
      val s [i; t; k] = (val a [i; t; k] + val b [0%nat; t; k])%R.
Proof.
  intros Ha Hb. unfold add, binop. rewrite Ha, Hb, broadcast_batch.
  eexists. split; [reflexivity|]. split; [reflexivity|].
  intros i t k Hi Ht Hk. cbn [val]. unfold bval, bidx. rewrite Ha, Hb.
  cbn [rev app bidx_rev Nat.eqb].
  now rewrite (bcast_index Hi), (bcast_index Ht), (bcast_index Hk).
Qed.

End ForwardAdd.

(** C7. For [pe_type = 'add'], on an input [xs] of shape [B, T, d_model]
    with [T <= max_len], forward returns
    [dropout(xs * sqrt(d_model) + pe[:, :T])]: the sum exists, it adds
    [pe[0, t, k]] to the scaled [xs[b, t, k]] at every index, and the
    output has the shape of the input. *)
Theorem C7_forward_add (fw : Framework) (d ml : Z) (p : R)
        (m : PositionalEncoding.t) (xs : Tensor) (B T : nat) :
  PositionalEncoding.__init__ d p "add" ml = Ok m ->
  shape xs = [B; T; Z.to_nat d] ->
  (T <= Z.to_nat ml)%nat ->
  exists table dp sl s,
    PositionalEncoding.pe m = Some table /\
    PositionalEncoding.dropout m = Some dp /\
    slice_dim1 table T = Ok sl /\
    add (mul_scalar xs (sqrt (IZR d))) sl = Ok s /\
    PositionalEncoding.forward m xs = Ok (dp s) /\
    shape (dp s) = shape xs /\
    forall b t k, (b < B)%nat -> (t < T)%nat -> (k < Z.to_nat d)%nat ->
      val s [b; t; k] =
      (val xs [b; t; k] * sqrt (IZR d) + val table [0%nat; t; k])%R.
Proof.
  intros Hok Hxs HT.
  destruct (PE_init_ok_inv d ml p "add" eq_refl Hok)
    as (Hml & Hd & _ & table & dp & Hdp & -> & Hsh & _).
  assert (Hsl : slice_dim1 table T =
                Ok (mkTensor [1%nat; T; Z.to_nat d] (val table))).
  { unfold slice_dim1. rewrite Hsh. now rewrite Nat.min_l. }
  destruct (@add_batch (mul_scalar xs (sqrt (IZR d)))
              (mkTensor [1%nat; T; Z.to_nat d] (val table)) B T (Z.to_nat d))
    as (s & Hadd & Hs & Hval); [exact Hxs | reflexivity |].
  exists table, dp, (mkTensor [1%nat; T; Z.to_nat d] (val table)), s.
  repeat split; try assumption.
  - unfold PositionalEncoding.forward, math_sqrt.
    cbn [PositionalEncoding.d_model PositionalEncoding.pe_type
         PositionalEncoding.pe PositionalEncoding.dropout].
    destruct (Z.ltb_spec d 0); [lia|]. cbn [bind].
    change ("add" =? "none")%string with false.
    change ("add" =? "add")%string with true.
    cbn [getattr bind]. unfold size. cbn [shape mul_scalar pointwise].
    rewrite Hxs. cbn [nth_error bind]. rewrite Hsl. cbn [bind].
    fold (mul_scalar xs (sqrt (IZR d))). rewrite Hadd. reflexivity.
  - rewrite (nn_Dropout_shape _ Hdp). now rewrite Hs, Hxs.
Qed.

Lemma C7_forward_add_witness :
  exists s,
    PositionalEncoding.forward pe_add_4_8 (mkTensor [2; 3; 4]%nat (fun _ => 1%R))
    = Ok s /\ shape s = [2; 3; 4]%nat.
Proof.
  destruct (@C7_forward_add identity_layers 4 8 0%R pe_add_4_8
              (mkTensor [2; 3; 4]%nat (fun _ => 1%R)) 2 3)
    as (table & dp & sl & s & _ & _ & _ & _ & Hf & Hs & _).
  - reflexivity.
  - reflexivity.
  - cbn. lia.
  - exists (dp s). split; [exact Hf | exact Hs].
Defined.

(** C8. For [pe_type = 'none'] the constructor stores neither a table nor
    a dropout layer, whatever the dropout probability and the mode of the
    layers, and forward returns exactly [xs * sqrt(d_model)] (the value of
    that Python expression: for a negative [d_model] both raise the domain
    error of [math.sqrt]); the result depends on nothing but [xs] and
    [d_model]. *)
Theorem C8_forward_none (fw : Framework) (d ml : Z) (p : R) (xs : Tensor) :
  exists m,
    PositionalEncoding.__init__ d p "none" ml = Ok m /\
    PositionalEncoding.pe m = None /\
    PositionalEncoding.dropout m = None /\
    (forall (fw' : Framework) (p' : R) (ml' : Z),
        PositionalEncoding.__init__ (fw := fw') d p' "none" ml' = Ok m) /\
    PositionalEncoding.forward m xs =
      (s <- math_sqrt d ;; Ok (mul_scalar xs s)) /\
    ((0 <= d)%Z ->
     PositionalEncoding.forward m xs = Ok (mul_scalar xs (sqrt (IZR d)))).
Proof.
  exists (PositionalEncoding.mk d "none" None None).
  do 5 (split; [reflexivity|]).
  intros Hd. unfold PositionalEncoding.forward, math_sqrt.
    cbn [PositionalEncoding.d_model PositionalEncoding.pe_type].
  destruct (Z.ltb_spec d 0); [lia|]. reflexivity.
Qed.

Lemma C8_forward_none_witness :
  PositionalEncoding.forward (PositionalEncoding.mk 4 "none" None None)
    (mkTensor [2; 3; 4]%nat (fun _ => 1%R))
  = Ok (mul_scalar (mkTensor [2; 3; 4]%nat (fun _ => 1%R)) (sqrt 4)).
Proof.
  destruct (C8_forward_none identity_layers 4 8 (1 / 2)%R
              (mkTensor [2; 3; 4]%nat (fun _ => 1%R)))
    as (m & Hm & _ & _ & _ & _ & Hf).
  injection Hm as <-. apply Hf. lia.
Defined.

(** ** PositionwiseFeedForward and the blocks *)

Section ModuleFacts.
Context {fw : Framework}.

Lemma supported_nonlinear_false (nl : string) :
  supported_nonlinear nl = false ->
  (nl =? "relu")%string = false /\ (nl =? "gelu")%string = false /\
  (nl =? "gelu_accurate")%string = false /\ (nl =? "glu")%string = false.
Proof.
  unfold supported_nonlinear. rewrite !orb_false_iff. tauto.
Qed.

Lemma supported_pe_type_false (pt : string) :
  supported_pe_type pt = false ->
  (pt =? "none")%string = false /\ (pt =? "add")%string = false /\
  (pt =? "concat")%string = false.
Proof.
  unfold supported_pe_type. rewrite !orb_false_iff. tauto.
Qed.

(** With an unknown nonlinearity the constructor builds its three layers
    and then raises. *)
Lemma PFF_init_unsupported (d_in d_ff d_out : Z) (p : R) (nl : string) :
  supported_nonlinear nl = false ->
  PositionwiseFeedForward.__init__ d_in d_ff d_out p nl =
  (w_1 <- nn_Linear d_in d_ff ;;
   w_2 <- nn_Linear d_ff d_out ;;
   dp <- nn_Dropout p ;;
   Raise (NotImplementedError (Some nl))).
Proof.
  intros H. apply supported_nonlinear_false in H.
  destruct H as (H1 & H2 & H3 & H4).
  unfold PositionwiseFeedForward.__init__.
  destruct (nn_Linear d_in d_ff); [|reflexivity].
  destruct (nn_Linear d_ff d_out); [|reflexivity].
  destruct (nn_Dropout p); [|reflexivity].
  cbn [bind]. now rewrite H1, H2, H3, H4.
Qed.

Lemma PFF_init_unsupported_not_ok (d_in d_ff d_out : Z) (p : R)
      (nl : string) (m : PositionwiseFeedForward.t) :
  supported_nonlinear nl = false ->
  PositionwiseFeedForward.__init__ d_in d_ff d_out p nl <> Ok m.
Proof.
  intros H. rewrite PFF_init_unsupported by assumption.
  destruct (nn_Linear d_in d_ff); [|discriminate].
  destruct (nn_Linear d_ff d_out); [|discriminate].
  destruct (nn_Dropout p); discriminate.
Qed.

Lemma PE_forward_unsupported (d ml : Z) (p : R) (pt : string)
      (m : PositionalEncoding.t) (xs : Tensor) :
  supported_pe_type pt = false ->
  PositionalEncoding.__init__ d p pt ml = Ok m ->
  PositionalEncoding.forward m xs = Raise (NotImplementedError (Some pt)).
Proof.
  intros H Hok. apply supported_pe_type_false in H.
  destruct H as (H1 & H2 & H3).
  destruct (PE_init_ok_inv _ _ _ _ H1 Hok)
    as (_ & Hd & _ & table & dp & _ & -> & _).
  unfold PositionalEncoding.forward, math_sqrt.
  cbn [PositionalEncoding.d_model PositionalEncoding.pe_type].
  destruct (Z.ltb_spec d 0); [lia|]. cbn [bind].
  now rewrite H1, H2, H3.
Qed.

(** Apart from the choice between 'none' and the rest, the constructor
    does not look at [pe_type]. *)
Lemma PE_init_is_ok (d ml : Z) (p : R) (pt : string) :
  (pt =? "none")%string = false ->
  is_ok (PositionalEncoding.__init__ d p pt ml) =
  (0 <=? ml)%Z && (0 <? d)%Z && columns_match (Z.to_nat d)
  && is_ok (nn_Dropout p).
Proof.
  intros Hpt.
  destruct (Z.leb_spec 0 ml) as [Hml|Hml];
    [|now rewrite PE_init_negative by auto].
  destruct (Z.ltb_spec 0 d) as [Hd|Hd].
  2:{ destruct (Z.eq_dec d 0) as [->|Hd0];
        [now rewrite PE_init_zero by auto|].
      rewrite PE_init_negative by (auto; lia). reflexivity. }
  destruct (columns_match (Z.to_nat d)) eqn:Hc;
    [|now rewrite PE_init_mismatch by auto].
  destruct (@PE_init_table _ d ml p pt Hpt Hml Hd Hc) as (table & -> & _).
  destruct (nn_Dropout p); reflexivity.
Qed.

Lemma TDB_init_average (d_model d_ff n_heads : Z) (p p_att eps : R)
      (nl : string) (sta : bool) :
  TransformerDecoderBlock.__init__ d_model d_ff "average" n_heads p p_att
    eps nl sta = Raise (NotImplementedError None).
Proof. reflexivity. Qed.

(** What a constructed decoder block remembers of its configuration. *)
Lemma TDB_init_ok_inv (d_model d_ff n_heads : Z) (p p_att eps : R)
      (atype nl : string) (sta : bool) (blk : TransformerDecoderBlock.t) :
  TransformerDecoderBlock.__init__ d_model d_ff atype n_heads p p_att eps
    nl sta = Ok blk ->
  (atype =? "average")%string = false /\
  TransformerDecoderBlock.atype blk = atype /\
  TransformerDecoderBlock.src_tgt_attention blk = sta.
Proof.
  unfold TransformerDecoderBlock.__init__.
  destruct (atype =? "average")%string; [discriminate|].
  destruct (nn_LayerNorm d_model eps); [|discriminate].
  destruct (MultiheadAttentionMechanism d_model d_model d_model atype
              n_heads p_att); [|discriminate].
  destruct (nn_Dropout p); [|discriminate].
  cbn [bind].
  destruct sta; cbn [bind];
    destruct (PositionwiseFeedForward.__init__ d_model d_ff d_model p nl);
    cbn [bind]; try discriminate;
    intros H; injection H as <-; auto.
Qed.

End ModuleFacts.

(** ** The claims on unsupported configurations *)

(** C1. Each unsupported configuration raises NotImplementedError:
    the forward of a PositionalEncoding built with a [pe_type] outside
    {'none', 'add', 'concat'} raises it at every call;
    PositionwiseFeedForward.__init__ never returns a module for a
    [nonlinear] outside {'relu', 'gelu', 'gelu_accurate', 'glu'} and raises
    it as soon as its three layers are built;
    TransformerDecoderBlock.__init__ raises it whenever
    [atype == 'average']. *)
Theorem C1_unsupported_raises_NotImplementedError (fw : Framework) :
  (forall (d ml : Z) (p : R) (pt : string) (m : PositionalEncoding.t)
          (xs : Tensor),
      supported_pe_type pt = false ->
      PositionalEncoding.__init__ d p pt ml = Ok m ->
      PositionalEncoding.forward m xs = Raise (NotImplementedError (Some pt)))
  /\
  (forall (d_in d_ff d_out : Z) (p : R) (nl : string),
      supported_nonlinear nl = false ->
      (forall m, PositionwiseFeedForward.__init__ d_in d_ff d_out p nl
                 <> Ok m) /\
      (is_ok (nn_Linear d_in d_ff) = true ->
       is_ok (nn_Linear d_ff d_out) = true ->
       is_ok (nn_Dropout p) = true ->
       PositionwiseFeedForward.__init__ d_in d_ff d_out p nl =
       Raise (NotImplementedError (Some nl))))
  /\
  (forall (d_model d_ff n_heads : Z) (p p_att eps : R) (nl : string)
          (sta : bool),
      TransformerDecoderBlock.__init__ d_model d_ff "average" n_heads p p_att
        eps nl sta = Raise (NotImplementedError None)).
Proof.
  split; [|split].
  - intros d ml p pt m xs H Hok. now apply PE_forward_unsupported with d ml p.
  - intros d_in d_ff d_out p nl H. split.
    + intros m. now apply PFF_init_unsupported_not_ok.
    + rewrite PFF_init_unsupported by assumption.
      destruct (nn_Linear d_in d_ff); [|discriminate].
      destruct (nn_Linear d_ff d_out); [|discriminate].
      destruct (nn_Dropout p); [reflexivity | discriminate].
  - intros. apply TDB_init_average.
Qed.

Lemma C1_unsupported_raises_NotImplementedError_witness :
  PositionalEncoding.forward
    (get (PositionalEncoding.__init__ (fw := identity_layers) 4 0%R "learned" 8)
         (PositionalEncoding.mk 0 "none" None None)) ones_2_3_4
  = Raise (NotImplementedError (Some "learned"%string)) /\
  PositionwiseFeedForward.__init__ (fw := identity_layers) 4 8 4 0%R "swish"
  = Raise (NotImplementedError (Some "swish"%string)) /\
  TransformerDecoderBlock.__init__ (fw := identity_layers) 4 8 "average" 2
    0%R 0%R 0%R "relu" true
  = Raise (NotImplementedError None).
Proof.
  destruct (C1_unsupported_raises_NotImplementedError identity_layers)
    as (Hpe & Hff & Hdec).
  split; [|split].
  - apply Hpe with (d := 4%Z) (ml := 8%Z) (p := 0%R); reflexivity.
  - apply (Hff 4%Z 8%Z 4%Z 0%R "swish"%string); reflexivity.
  - apply Hdec.
Defined.

(** C2, as stated, fails for PositionalEncoding: its constructor accepts an
    unsupported [pe_type], and the error is raised by forward. *)
Lemma C2_pe_type_is_rejected_by_forward :
  exists m,
    supported_pe_type "learned" = false /\
    PositionalEncoding.__init__ (fw := identity_layers) 2 0%R "learned" 1
    = Ok m /\
    PositionalEncoding.forward m (mkTensor [1; 1; 2]%nat (fun _ => 1%R))
    = Raise (NotImplementedError (Some "learned"%string)).
Proof.
  eexists. split; [reflexivity|]. split; reflexivity.
Qed.

(** C2 (amended). An unsupported nonlinearity and the 'average' attention
    type are rejected during construction: PositionwiseFeedForward.__init__
    returns no module for the former, TransformerDecoderBlock.__init__
    returns none for the latter, and a constructed decoder block never
    takes the raising branch of its forward. An unsupported [pe_type] is not
    rejected by PositionalEncoding.__init__, which succeeds exactly when it
    does for 'add'; NotImplementedError is raised by every call of forward
    on the module it returns. *)
Theorem C2_where_unsupported_values_are_rejected (fw : Framework) :
  (forall (d_in d_ff d_out : Z) (p : R) (nl : string) m,
      supported_nonlinear nl = false ->
      PositionwiseFeedForward.__init__ d_in d_ff d_out p nl <> Ok m)
  /\
  (forall (d_model d_ff n_heads : Z) (p p_att eps : R) (atype nl : string)
          (sta : bool) blk,
      TransformerDecoderBlock.__init__ d_model d_ff atype n_heads p p_att eps
        nl sta = Ok blk ->
      atype <> "average"%string /\
      (TransformerDecoderBlock.atype blk =? "average")%string = false)
  /\
  (forall (d ml : Z) (p : R) (pt : string),
      supported_pe_type pt = false ->
      is_ok (PositionalEncoding.__init__ d p pt ml) =
      is_ok (PositionalEncoding.__init__ d p "add" ml) /\
      forall m xs,
        PositionalEncoding.__init__ d p pt ml = Ok m ->
        PositionalEncoding.forward m xs =
        Raise (NotImplementedError (Some pt))).
Proof.
  split; [|split].
  - intros d_in d_ff d_out p nl m H. now apply PFF_init_unsupported_not_ok.
  - intros d_model d_ff n_heads p p_att eps atype nl sta blk Hok.
    destruct (TDB_init_ok_inv _ _ _ _ _ _ _ _ _ Hok) as (Ha & -> & _).
    split; [|assumption].
    intros ->. discriminate.
  - intros d ml p pt H. split.
    + destruct (supported_pe_type_false _ H) as (H1 & _).
      now rewrite !PE_init_is_ok.
    + intros m xs Hok. now apply PE_forward_unsupported with d ml p.
Qed.

Lemma C2_where_unsupported_values_are_rejected_witness :
  is_ok (PositionalEncoding.__init__ (fw := identity_layers) 4 0%R "learned" 8)
  = is_ok (PositionalEncoding.__init__ (fw := identity_layers) 4 0%R "add" 8)
  /\ (TransformerDecoderBlock.atype decoder_4_8 =? "average")%string = false.
Proof.
  destruct (C2_where_unsupported_values_are_rejected identity_layers)
    as (_ & Hdec & Hpe).
  split.
  - apply (Hpe 4%Z 8%Z 0%R "learned"%string). reflexivity.
  - apply (Hdec 4%Z 8%Z 2%Z 0%R 0%R 0%R "scaled_dot"%string "relu"%string
             false decoder_4_8).
    reflexivity.
Defined.

(** ** The claims on the feed-forward network and the blocks *)

(** C5. PositionwiseFeedForward.forward computes
    [w_2(dropout(nonlinear(w_1(xs))))] for every input, which is
    [w_2(nonlinear(w_1(xs)))] when dropout is the identity; [w_1] is the
    linear layer from [d_in] to [d_ff], [w_2] the one from [d_ff] to
    [d_out], and 'relu' selects [torch.relu]. *)
Theorem C5_feed_forward_formula (fw : Framework) (d_in d_ff d_out : Z)
        (p : R) (nl : string) (m : PositionwiseFeedForward.t) :
  PositionwiseFeedForward.__init__ d_in d_ff d_out p nl = Ok m ->
  nn_Linear d_in d_ff = Ok (PositionwiseFeedForward.w_1 m) /\
  nn_Linear d_ff d_out = Ok (PositionwiseFeedForward.w_2 m) /\
  nn_Dropout p = Ok (PositionwiseFeedForward.dropout m) /\
  (nl = "relu"%string ->
   PositionwiseFeedForward.nonlinear m = fun x => Ok (relu x)) /\
  (forall xs,
      PositionwiseFeedForward.forward m xs =
      (h <- PositionwiseFeedForward.w_1 m xs ;;
       a <- PositionwiseFeedForward.nonlinear m h ;;
       PositionwiseFeedForward.w_2 m (PositionwiseFeedForward.dropout m a))) /\
  ((forall x, PositionwiseFeedForward.dropout m x = x) ->
   forall xs,
     PositionwiseFeedForward.forward m xs =
     (h <- PositionwiseFeedForward.w_1 m xs ;;
      a <- PositionwiseFeedForward.nonlinear m h ;;
      PositionwiseFeedForward.w_2 m a)).
Proof.
  unfold PositionwiseFeedForward.__init__. intros Hok.
  destruct (nn_Linear d_in d_ff) as [W1|]; [|discriminate].
  destruct (nn_Linear d_ff d_out) as [W2|]; [|discriminate].
  destruct (nn_Dropout p) as [dp|]; [|discriminate].
  cbn [bind] in Hok.
  assert (Hm : PositionwiseFeedForward.w_1 m = W1 /\
               PositionwiseFeedForward.w_2 m = W2 /\
               PositionwiseFeedForward.dropout m = dp /\
               (nl = "relu"%string ->
                PositionwiseFeedForward.nonlinear m = fun x => Ok (relu x))).
  { destruct (nl =? "relu")%string eqn:E1.
    { injection Hok as <-. auto. }
    assert (nl <> "relu"%string)
      by (intros ->; discriminate).
    destruct (nl =? "gelu")%string.
    { injection Hok as <-. repeat split; tauto. }
    destruct (nl =? "gelu_accurate")%string.
    { injection Hok as <-. repeat split; tauto. }
    destruct (nl =? "glu")%string; [|discriminate].
    destruct (LinearGLUBlock d_ff); [|discriminate].
    injection Hok as <-. repeat split; tauto. }
  destruct Hm as (<- & <- & <- & Hrelu). clear Hok.
  do 3 (split; [reflexivity|]).
  split; [assumption|].
  split; [reflexivity|].
  intros Hid xs. unfold PositionwiseFeedForward.forward.
  destruct (PositionwiseFeedForward.w_1 m xs) as [h|]; [|reflexivity].
  cbn [bind].
  destruct (PositionwiseFeedForward.nonlinear m h) as [a|]; [|reflexivity].
  cbn [bind]. now rewrite Hid.
Qed.

Lemma C5_feed_forward_formula_witness :
  PositionwiseFeedForward.forward
    (get (PositionwiseFeedForward.__init__ (fw := identity_layers) 4 8 4
            0%R "relu") ffn_identity) ones_2_3_4
  = Ok (relu ones_2_3_4).
Proof.
  destruct (@C5_feed_forward_formula identity_layers 4 8 4 0%R "relu"
              (get (PositionwiseFeedForward.__init__ (fw := identity_layers)
                      4 8 4 0%R "relu") ffn_identity) eq_refl)
    as (_ & _ & _ & _ & _ & Heval).
  rewrite Heval; reflexivity.
Defined.

(** C4. With its two dropout layers acting as the identity,
    TransformerEncoderBlock.forward is the pre-norm residual block: it
    returns [(out, xx_aws)] with
    [h = self_attn(norm1(xs), norm1(xs), norm1(xs), mask) + xs] and
    [out = feed_forward(norm2(h)) + h], the attention being called after
    its reset. *)
Theorem C4_encoder_block_is_pre_norm (fw : Framework)
        (self : TransformerEncoderBlock.t) (xs : Tensor)
        (xx_mask : option Tensor) :
  (forall x, TransformerEncoderBlock.dropout1 self x = x) ->
  (forall x, TransformerEncoderBlock.dropout2 self x = x) ->
  TransformerEncoderBlock.forward self xs xx_mask =
  (n1 <- TransformerEncoderBlock.norm1 self xs ;;
   ' (a, xx_aws, attn) <-
     mha_call (mha_reset (TransformerEncoderBlock.self_attn self))
              (Some n1) (Some n1) n1 xx_mask ;;
   h <- add a xs ;;
   n2 <- TransformerEncoderBlock.norm2 self h ;;
   ff <- PositionwiseFeedForward.forward
           (TransformerEncoderBlock.feed_forward self) n2 ;;
   out <- add ff h ;;
   Ok (out, xx_aws, TransformerEncoderBlock.set_self_attn self attn)).
Proof.
  intros H1 H2. unfold TransformerEncoderBlock.forward.
  destruct (TransformerEncoderBlock.norm1 self xs) as [n1|]; [|reflexivity].
  cbn [bind].
  destruct (mha_call _ _ _ _ _) as [[[a aws] attn]|]; [|reflexivity].
  cbn [bind]. rewrite H1.
  destruct (add a xs) as [h|]; [|reflexivity]. cbn [bind].
  destruct (TransformerEncoderBlock.norm2 self h) as [n2|]; [|reflexivity].
  cbn [bind].
  destruct (PositionwiseFeedForward.forward _ n2) as [ff|]; [|reflexivity].
  cbn [bind]. now rewrite H2.
Qed.

Lemma C4_encoder_block_is_pre_norm_witness :
  is_ok (TransformerEncoderBlock.forward encoder_4_8 ones_2_3_4 None) = true.
Proof.
  rewrite (@C4_encoder_block_is_pre_norm identity_layers encoder_4_8
             ones_2_3_4 None (fun x => eq_refl) (fun x => eq_refl)).
  reflexivity.
Defined.

Section DecoderFacts.
Context {fw : Framework}.

(** The decoder block without source-target attention: what forward
    computes does not mention [xs] and [xy_mask]. *)
Lemma TDB_forward_without_src (self : TransformerDecoderBlock.t)
      (ys : Tensor) (yy_mask xs xy_mask : option Tensor) :
  TransformerDecoderBlock.src_tgt_attention self = false ->
  TransformerDecoderBlock.forward self ys yy_mask xs xy_mask =
  if (TransformerDecoderBlock.atype self =? "average")%string
  then Raise (NotImplementedError None)
  else
    n1 <- TransformerDecoderBlock.norm1 self ys ;;
    ' (a, yy_aw, attn) <-
      mha_call (mha_reset (TransformerDecoderBlock.self_attn self))
               (Some n1) (Some n1) n1 yy_mask ;;
    h <- add (TransformerDecoderBlock.dropout1 self a) ys ;;
    n3 <- TransformerDecoderBlock.norm3 self h ;;
    ff <- PositionwiseFeedForward.forward
            (TransformerDecoderBlock.feed_forward self) n3 ;;
    out <- add (TransformerDecoderBlock.dropout3 self ff) h ;;
    Ok (out, yy_aw, None,
        TransformerDecoderBlock.set_attn self attn
          (TransformerDecoderBlock.src_attn self)).
Proof.
  intros Hs. unfold TransformerDecoderBlock.forward. rewrite Hs.
  destruct (TransformerDecoderBlock.atype self =? "average")%string;
    [reflexivity|].
  destruct (TransformerDecoderBlock.norm1 self ys) as [n1|]; [|reflexivity].
  cbn [bind].
  destruct (mha_call _ _ _ _ _) as [[[a aw] attn]|]; [|reflexivity].
  cbn [bind].
  destruct (add _ ys) as [h|]; reflexivity.
Qed.

End DecoderFacts.

(** C9. For every TransformerDecoderBlock constructed with
    [src_tgt_attention = False], forward returns the same result for any
    two values of the encoder outputs [xs] and of [xy_mask], and the
    [xy_aw] it returns is None. *)
Theorem C9_decoder_without_src_ignores_encoder (fw : Framework)
        (d_model d_ff n_heads : Z) (p p_att eps : R) (atype nl : string)
        (blk : TransformerDecoderBlock.t) :
  TransformerDecoderBlock.__init__ d_model d_ff atype n_heads p p_att eps nl
    false = Ok blk ->
  forall (ys : Tensor) (yy_mask xs1 xs2 xy_mask1 xy_mask2 : option Tensor),
    TransformerDecoderBlock.forward blk ys yy_mask xs1 xy_mask1 =
    TransformerDecoderBlock.forward blk ys yy_mask xs2 xy_mask2 /\
    forall ys' yy_aw xy_aw blk',
      TransformerDecoderBlock.forward blk ys yy_mask xs1 xy_mask1 =
      Ok (ys', yy_aw, xy_aw, blk') ->
      xy_aw = None.
Proof.
  intros Hok ys yy_mask xs1 xs2 xy_mask1 xy_mask2.
  destruct (TDB_init_ok_inv _ _ _ _ _ _ _ _ _ Hok) as (_ & _ & Hs).
  rewrite !TDB_forward_without_src by assumption.
  split; [reflexivity|].
  intros ys' yy_aw xy_aw blk'.
  destruct (TransformerDecoderBlock.atype blk =? "average")%string;
    [discriminate|].
  destruct (TransformerDecoderBlock.norm1 blk ys) as [n1|]; [|discriminate].
  cbn [bind].
  destruct (mha_call _ _ _ _ _) as [[[a aw] attn]|]; [|discriminate].
  cbn [bind].
  destruct (add _ ys) as [h|]; [|discriminate]. cbn [bind].
  destruct (TransformerDecoderBlock.norm3 blk h) as [n3|]; [|discriminate].
  cbn [bind].
  destruct (PositionwiseFeedForward.forward _ n3) as [ff|]; [|discriminate].
  cbn [bind].
  destruct (add _ h) as [out|]; [|discriminate]. cbn [bind].
  intros H. now injection H as _ _ <- _.
Qed.

Lemma C9_decoder_without_src_ignores_encoder_witness :
  TransformerDecoderBlock.forward decoder_4_8 ones_2_3_4 None None None =
  TransformerDecoderBlock.forward decoder_4_8 ones_2_3_4 None
    (Some (mkTensor [2; 7; 4]%nat (fun _ => 5%R))) (Some ones_2_3_4)
  /\ is_ok (TransformerDecoderBlock.forward decoder_4_8 ones_2_3_4 None None
              None) = true.
Proof.
  split.
  - apply (@C9_decoder_without_src_ignores_encoder identity_layers 4 8 2
             0%R 0%R 0%R "scaled_dot" "relu" decoder_4_8 eq_refl).
  - reflexivity.
Defined.

(** ** The claims on the training loop of the test *)

Lemma Ok_inj (A : Type) (a b : A) : Ok a = Ok b -> a = b.
Proof. intros H. now injection H. Qed.

Section TrainFacts.
Variable D : TestAttention.Driver.

(** The outcome of the loop over the steps [k, ..., k + n - 1], entered
    after [k] updates. *)
Lemma train_outcome (n k : nat)
      (r : TestAttention.Run (TestAttention.Model D)) :
  TestAttention.n_updates r = k ->
  TestAttention.converged r = false ->
  Forall not_converging (TestAttention.lers r) ->
  let r' := TestAttention.train D (seq k n) r in
  (TestAttention.n_updates r' <= k + n)%nat /\
  (TestAttention.converged r' = false ->
   TestAttention.n_updates r' = (k + n)%nat /\
   Forall not_converging (TestAttention.lers r')) /\
  (TestAttention.converged r' = true ->
   (TestAttention.n_updates r' mod 10 = 0)%nat /\
   exists ler rest,
     TestAttention.lers r' = ler :: rest /\
     TestAttention.Qltb ler (1 # 10) = true /\
     Forall not_converging rest).
Proof.
  revert k r. induction n as [|n IH]; intros k r Hk Hc Hl.
  - cbn. split; [lia|]. split.
    + intros _. split; [lia | assumption].
    + rewrite Hc. discriminate.
  - cbn [seq TestAttention.train].
    destruct (TestAttention.update D (TestAttention.model r)) as [m loss].
    set (m' := if TestAttention.Qltb loss (50 # 1)
               then TestAttention.inject_noise D m else m).
    destruct ((k + 1) mod 10 =? 0)%nat eqn:Hten.
    + destruct (TestAttention.Qltb (TestAttention.decode_ler D m') (1 # 10))
        eqn:Hler.
      * cbn [TestAttention.n_updates TestAttention.converged
               TestAttention.lers].
        split; [lia|]. split; [discriminate|].
        intros _. split.
        -- apply Nat.eqb_eq in Hten. rewrite Hk.
           now replace (S k) with (k + 1)%nat by lia.
        -- eauto.
      * destruct (TestAttention.decay_lr D m' (TestAttention.learning_rate r)
                    k (TestAttention.decode_ler D m')) as [m2 lr].
        match goal with |- context [TestAttention.train D _ ?r0] =>
          destruct (IH (S k) r0) as (H1 & H2 & H3) end;
          [cbn; lia | reflexivity | cbn; constructor; assumption |].
        cbn zeta. split; [lia|]. split; [|assumption].
        intros Hf. destruct (H2 Hf) as [H2a H2b]. split; [lia | assumption].
    + match goal with |- context [TestAttention.train D _ ?r0] =>
        destruct (IH (S k) r0) as (H1 & H2 & H3) end;
        [cbn; lia | reflexivity | assumption |].
      cbn zeta. split; [lia|]. split; [|assumption].
      intros Hf. destruct (H2 Hf) as [H2a H2b]. split; [lia | assumption].
Qed.

Lemma check_returns_run (m0 : TestAttention.Model D)
      (r : TestAttention.Run (TestAttention.Model D)) :
  TestAttention.check D m0 = Ok r ->
  r = TestAttention.train D (seq 0 TestAttention.max_step)
        (TestAttention.mkRun m0 (1 # 1000)%Q 0 [] false).
Proof.
  unfold TestAttention.check. intros H.
  symmetry. exact (Ok_inj H).
Qed.

End TrainFacts.




(** ** Further properties of PositionalEncoding.__init__ *)

Section ConstructorFacts.
Context {fw : Framework}.

Lemma columns_match_bool (d : Z) :
  (0 < d)%Z -> columns_match (Z.to_nat d) = Z.even d || (d =? 1)%Z.
Proof.
  intros Hd. apply eq_true_iff_eq.
  rewrite columns_match_iff, orb_true_iff, Z.eqb_eq by assumption.
  reflexivity.
Qed.

(** The entries of the table of a constructed module, by column parity. *)
Lemma PE_item (d ml : Z) (p : R) (pt : string) (m : PositionalEncoding.t)
      (table : Tensor) (pos k : nat) :
  (pt =? "none")%string = false ->
  PositionalEncoding.__init__ d p pt ml = Ok m ->
  PositionalEncoding.pe m = Some table ->
  (pos < Z.to_nat ml)%nat -> (k < Z.to_nat d)%nat ->
  item table [0; pos; k]%nat =
  Ok (if Nat.even k then sin (angle d pos (k / 2))
      else cos (angle d pos (k / 2))).
Proof.
  intros Hpt Hok Hpe Hpos Hk.
  destruct (PE_init_ok_inv _ _ _ _ Hpt Hok)
    as (_ & _ & _ & table' & dp & _ & -> & Hsh & Hval).
  cbn [PositionalEncoding.pe] in Hpe. injection Hpe as <-.
  unfold item. rewrite Hsh, in_bounds_3, Hval by lia. reflexivity.
Qed.

Lemma angle_0 (d : Z) (i : nat) : angle d 0 i = 0%R.
Proof. unfold angle. cbn [INR]. apply Rmult_0_l. Qed.

End ConstructorFacts.

(** X1. With a [pe_type] other than 'none' the constructor rejects bad
    sizes while it builds the table: a negative [max_len] or [d_model] is
    the framework's RuntimeError of [torch.zeros], and [d_model = 0] is the
    ZeroDivisionError of [math.log(10000.0) / d_model]. With 'none' the
    sizes are not looked at and the constructor always returns. *)
Theorem X1_init_size_errors (fw : Framework) (d ml : Z) (p : R)
        (pt : string) :
  (pt =? "none")%string = false ->
  ((ml < 0 \/ d < 0)%Z ->
   PositionalEncoding.__init__ d p pt ml = Raise RuntimeError) /\
  ((0 <= ml)%Z -> d = 0%Z ->
   PositionalEncoding.__init__ d p pt ml = Raise ZeroDivisionError) /\
  is_ok (PositionalEncoding.__init__ d p "none" ml) = true.
Proof.
  intros Hpt. split; [|split].
  - intros H. now apply PE_init_negative.
  - intros Hml ->. now apply PE_init_zero.
  - reflexivity.
Qed.

Lemma X1_init_size_errors_witness :
  PositionalEncoding.__init__ (fw := identity_layers) 0 0%R "add" 8
  = Raise ZeroDivisionError /\
  PositionalEncoding.__init__ (fw := identity_layers) (-4) 0%R "concat" 8
  = Raise RuntimeError.
Proof.
  split.
  - apply (proj1 (proj2 (@X1_init_size_errors identity_layers 0 8 0%R "add"
                           eq_refl))); [lia | reflexivity].
  - apply (proj1 (@X1_init_size_errors identity_layers (-4) 8 0%R "concat"
                    eq_refl)). right. lia.
Defined.

(** X2. With a [pe_type] other than 'none' the constructor returns a module
    exactly when [max_len >= 0], [d_model] is positive and either even or
    equal to 1, and the framework accepts the dropout probability. *)
Theorem X2_init_succeeds_iff (fw : Framework) (d ml : Z) (p : R)
        (pt : string) :
  (pt =? "none")%string = false ->
  is_ok (PositionalEncoding.__init__ d p pt ml) =
  (0 <=? ml)%Z && (0 <? d)%Z && (Z.even d || (d =? 1)%Z)
  && is_ok (nn_Dropout p).
Proof.
  intros Hpt. rewrite PE_init_is_ok by assumption.
  destruct (Z.ltb_spec 0 d) as [Hd|Hd].
  - now rewrite columns_match_bool.
  - now rewrite !andb_false_r.
Qed.

Lemma X2_init_succeeds_iff_witness :
  is_ok (PositionalEncoding.__init__ (fw := identity_layers) 6 0%R "concat" 0)
  = true.
Proof.
  rewrite (@X2_init_succeeds_iff identity_layers 6 0 0%R "concat" eq_refl).
  reflexivity.
Defined.

(** X4. Position 0 carries no angle: in the table of a constructed module
    the row [pos = 0] is 0 in every even column and 1 in every odd column
    (the position is the float 0, its product with the frequency is 0,
    and [sin(0) = 0], [cos(0) = 1] hold of the rounded functions too). *)
Theorem X4_table_first_row (fw : Framework) (d ml : Z) (p : R)
        (pt : string) (m : PositionalEncoding.t) (table : Tensor) (k : nat) :
  (pt =? "none")%string = false ->
  PositionalEncoding.__init__ d p pt ml = Ok m ->
  PositionalEncoding.pe m = Some table ->
  (0 < Z.to_nat ml)%nat -> (k < Z.to_nat d)%nat ->
  item table [0; 0; k]%nat = Ok (if Nat.even k then 0%R else 1%R).
Proof.
  intros Hpt Hok Hpe Hml Hk.
  rewrite (@PE_item _ _ _ _ _ _ _ _ _ Hpt Hok Hpe Hml Hk), angle_0.
  now rewrite sin_0, cos_0.
Qed.

Lemma X4_table_first_row_witness :
  item table_4_8 [0; 0; 3]%nat = Ok 1%R.
Proof.
  apply (@X4_table_first_row identity_layers 4 8 0%R "add" pe_add_4_8
           table_4_8 3 eq_refl eq_refl eq_refl); cbn; lia.
Defined.

Section TableLayout.
Context {fw : Framework}.

(** The table in terms of the two ranges it is computed from. *)
Lemma PE_init_layout (d ml : Z) (p : R) (pt : string) :
  (pt =? "none")%string = false -> (0 <= ml)%Z -> (0 < d)%Z ->
  columns_match (Z.to_nat d) = true ->
  exists position steps table,
    (ar <- arange 0 ml 1 ;; unsqueeze ar 1) = Ok position /\
    arange 0 d 2 = Ok steps /\
    PositionalEncoding.__init__ d p pt ml =
      (dp <- nn_Dropout p ;;
       Ok (PositionalEncoding.mk d pt (Some table) (Some dp))) /\
    forall pos k, (pos < Z.to_nat ml)%nat -> (k < Z.to_nat d)%nat ->
      val table [0%nat; pos; k] =
      let w := (val position [pos; 0%nat]
                * exp (val steps [(k / 2)%nat]
                       * - (math_log 10000 / IZR d)))%R in
      if Nat.even k then sin w else cos w.
Proof.
  intros Hpt Hml Hd Hc.
  unfold PositionalEncoding.__init__. rewrite Hpt. cbn [negb].
  rewrite zeros_2, !arange_from_0 by lia. cbn [bind].
  rewrite arange_len_1, arange_len_2 by lia.
  unfold unsqueeze, rank. cbn [shape List.length Nat.leb bind firstn skipn app].
  unfold truediv. destruct (Z.eqb_spec d 0); [lia|]. cbn [bind].
  match goal with |- context [mul ?a ?b] =>
    destruct (@mul_col_row a b (Z.to_nat ml) ((Z.to_nat d + 1) / 2))
      as (ang & -> & Hsh & Hang); [reflexivity | reflexivity |] end.
  cbn [bind].
  rewrite (@setitem_cols_matrix _ _ (Z.to_nat ml) (Z.to_nat d)
             ((Z.to_nat d + 1) / 2)) by (cbn [shape pointwise]; auto).
  rewrite stride_count_even, Nat.eqb_refl by lia. cbn [orb bind].
  rewrite (@setitem_cols_matrix _ _ (Z.to_nat ml) (Z.to_nat d)
             ((Z.to_nat d + 1) / 2)) by (cbn [shape pointwise]; auto).
  rewrite stride_count_odd. unfold columns_match in Hc. rewrite Hc.
  cbn [bind shape List.length Nat.leb firstn skipn app].
  do 3 eexists. split; [reflexivity|]. split; [reflexivity|].
  split; [reflexivity|].
  cbn [val pointwise mul_scalar firstn skipn app] in Hang.
  intros pos k Hpos Hk. cbn [val skipn firstn app]. cbv zeta.
  change (match k with 0%nat => false | S _ => true end) with (1 <=? k)%nat.
  destruct (Nat.Even_or_Odd k) as [[q ->]|[q ->]].
  - rewrite Nat.even_even, div2_double.
    assert (Hq : (q < (Z.to_nat d + 1) / 2)%nat).
    { apply Nat.div_le_lower_bound; lia. }
    replace ((1 <=? 2 * q)%nat && ((2 * q - 1) mod 2 =? 0)%nat) with false.
    2:{ destruct q as [|q]; [reflexivity|].
        replace (2 * S q - 1)%nat with (2 * q + 1)%nat by lia.
        rewrite mod2_double_1. symmetry. apply andb_false_r. }
    rewrite Nat.sub_0_r, mod2_double, div2_double. cbn [andb Nat.eqb].
    rewrite (@bval_matrix _ (Z.to_nat ml) ((Z.to_nat d + 1) / 2))
      by (cbn [shape pointwise]; auto).
    cbn [val pointwise]. now rewrite Hang.
  - rewrite Nat.even_odd, div2_double_1.
    assert (Hq : (q < (Z.to_nat d + 1) / 2)%nat).
    { apply Nat.div_le_lower_bound; lia. }
    replace (2 * q + 1 - 1)%nat with (2 * q)%nat by lia.
    rewrite mod2_double, div2_double.
    replace (1 <=? 2 * q + 1)%nat with true
      by (symmetry; apply Nat.leb_le; lia).
    cbn [andb Nat.eqb].
    rewrite (@bval_matrix _ (Z.to_nat ml) ((Z.to_nat d + 1) / 2))
      by (cbn [shape pointwise]; auto).
    cbn [val pointwise]. now rewrite Hang.
Qed.

End TableLayout.

(** X18. The layout of the table: with
    [position = arange(0, max_len).unsqueeze(1)] and
    [steps = arange(0, d_model, 2)], the table of a constructed module
    holds, for every position [pos < max_len], in the even column [2i] the
    sine and in the odd column [2i+1] (when it exists) the cosine of one
    and the same product
    [position[pos] * exp(steps[i] * -(log(10000.0) / d_model))]. *)
Theorem X18_table_layout (fw : Framework) (d ml : Z) (p : R) (pt : string)
        (m : PositionalEncoding.t) (table : Tensor) :
  (pt =? "none")%string = false ->
  PositionalEncoding.__init__ d p pt ml = Ok m ->
  PositionalEncoding.pe m = Some table ->
  exists position steps,
    (ar <- arange 0 ml 1 ;; unsqueeze ar 1) = Ok position /\
    arange 0 d 2 = Ok steps /\
    forall pos i, (pos < Z.to_nat ml)%nat ->
      let w := (val position [pos; 0%nat]
                * exp (val steps [i] * - (math_log 10000 / IZR d)))%R in
      ((2 * i < Z.to_nat d)%nat ->
       item table [0; pos; 2 * i]%nat = Ok (sin w)) /\
      ((2 * i + 1 < Z.to_nat d)%nat ->
       item table [0; pos; 2 * i + 1]%nat = Ok (cos w)).
Proof.
  intros Hpt Hok Hpe.
  destruct (PE_init_ok_inv _ _ _ _ Hpt Hok)
    as (Hml & Hd & Hc & table0 & dp & Hdp & Hm & Hsh & _).
  destruct (@PE_init_layout _ d ml p pt Hpt Hml Hd Hc)
    as (position & steps & table' & Hpos & Hsteps & Hinit & Hval).
  rewrite Hinit, Hdp in Hok. cbn [bind] in Hok.
  assert (table' = table) as ->.
  { injection Hok as <-. cbn [PositionalEncoding.pe] in Hpe.
    now injection Hpe. }
  assert (table0 = table) as ->.
  { subst m. cbn [PositionalEncoding.pe] in Hpe. now injection Hpe. }
  exists position, steps. split; [assumption|]. split; [assumption|].
  intros pos i Hp. cbv zeta. unfold item. rewrite Hsh. split; intros Hi.
  - rewrite in_bounds_3, Hval by lia. cbv zeta.
    now rewrite Nat.even_even, div2_double.
  - rewrite in_bounds_3, Hval by lia. cbv zeta.
    now rewrite Nat.even_odd, div2_double_1.
Qed.

Lemma X18_table_layout_witness :
  exists position steps,
    (ar <- arange 0 8 1 ;; unsqueeze ar 1) = Ok position /\
    arange 0 4 2 = Ok steps /\
    item table_4_8 [0; 5; 3]%nat =
    Ok (cos (val position [5; 0]%nat
             * exp (val steps [1%nat] * - (math_log 10000 / IZR 4)))%R).
Proof.
  destruct (@X18_table_layout identity_layers 4 8 0%R "add" pe_add_4_8
              table_4_8 eq_refl eq_refl eq_refl)
    as (position & steps & Hp & Hs & Hval).
  exists position, steps. split; [exact Hp|]. split; [exact Hs|].
  apply (proj2 (Hval 5%nat 1%nat ltac:(cbn; lia))). cbn. lia.
Defined.

(** ** Further properties of PositionalEncoding.forward *)

Section ForwardFacts.
Context {fw : Framework}.

(** The steps of forward that 'add' and 'concat' share, on a constructed
    module and an input of rank 3. *)
Lemma PE_forward_prefix (d ml : Z) (p : R) (pt : string)
      (m : PositionalEncoding.t) (xs : Tensor) (B T D : nat) :
  (pt =? "none")%string = false ->
  PositionalEncoding.__init__ d p pt ml = Ok m ->
  shape xs = [B; T; D] ->
  exists table dp,
    nn_Dropout p = Ok dp /\
    PositionalEncoding.pe m = Some table /\
    shape table = [1%nat; Z.to_nat ml; Z.to_nat d] /\
    PositionalEncoding.forward m xs =
    (let xs' := mul_scalar xs (sqrt (IZR d)) in
     let sl := mkTensor [1%nat; Nat.min T (Z.to_nat ml); Z.to_nat d]
                        (val table) in
     if (pt =? "add")%string then xs'' <- add xs' sl ;; Ok (dp xs'')
     else if (pt =? "concat")%string then
       xs'' <- cat_last xs' sl ;; Ok (dp xs'')
     else Raise (NotImplementedError (Some pt))).
Proof.
  intros Hpt Hok Hxs.
  destruct (PE_init_ok_inv _ _ _ _ Hpt Hok)
    as (Hml & Hd & _ & table & dp & Hdp & -> & Hsh & _).
  exists table, dp. do 3 (split; [assumption || reflexivity|]).
  unfold PositionalEncoding.forward, math_sqrt.
  cbn [PositionalEncoding.d_model PositionalEncoding.pe_type
       PositionalEncoding.pe PositionalEncoding.dropout].
  destruct (Z.ltb_spec d 0); [lia|]. cbn [bind]. rewrite Hpt.
  unfold size, slice_dim1. cbn [shape mul_scalar pointwise getattr bind].
  rewrite Hxs, Hsh. cbn [nth_error bind].
  destruct (pt =? "add")%string; [reflexivity|].
  destruct (pt =? "concat")%string; reflexivity.
Qed.

Lemma broadcast_too_long (B T L D : nat) :
  T <> L -> T <> 1%nat -> L <> 1%nat ->
  broadcast_shapes [B; T; D] [1%nat; L; D] = None.
Proof.
  intros H1 H2 H3. unfold broadcast_shapes. cbn [rev app broadcast_rev].
  apply Nat.eqb_neq in H1, H2, H3. rewrite H1, H2, H3.
  destruct (B =? 1)%nat; reflexivity.
Qed.

End ForwardFacts.

(** X6. A sequence longer than the table is rejected: with 'add', an input
    of shape [B, T, d_model] with [T > max_len >= 2] makes forward raise
    the framework's RuntimeError (the slice [pe[:, :T]] has only [max_len]
    rows and cannot be broadcast). *)
Theorem X6_forward_add_too_long (fw : Framework) (d ml : Z) (p : R)
        (m : PositionalEncoding.t) (xs : Tensor) (B T : nat) :
  PositionalEncoding.__init__ d p "add" ml = Ok m ->
  shape xs = [B; T; Z.to_nat d] ->
  (2 <= Z.to_nat ml < T)%nat ->
  PositionalEncoding.forward m xs = Raise RuntimeError.
Proof.
  intros Hok Hxs HT.
  destruct (@PE_forward_prefix fw d ml p "add" m xs B T (Z.to_nat d)
              eq_refl Hok Hxs) as (table & dp & _ & _ & _ & ->).
  cbv zeta. change ("add" =? "add")%string with true. cbv iota.
  unfold add, binop. cbn [shape mul_scalar pointwise]. rewrite Hxs.
  rewrite Nat.min_r by lia.
  rewrite broadcast_too_long by lia. reflexivity.
Qed.

Lemma X6_forward_add_too_long_witness :
  PositionalEncoding.forward pe_add_4_8
    (mkTensor [2; 9; 4]%nat (fun _ => 1%R)) = Raise RuntimeError.
Proof.
  apply (@X6_forward_add_too_long identity_layers 4 8 0%R pe_add_4_8
           (mkTensor [2; 9; 4]%nat (fun _ => 1%R)) 2 9 eq_refl eq_refl).
  cbn. lia.
Defined.

(** X7. With [max_len = 1] nothing is rejected: 'add' broadcasts the one
    row of the table, so an input of any length [T] is accepted and the
    encoding of position 0 is added at every position. *)
Theorem X7_forward_add_max_len_1 (fw : Framework) (d : Z) (p : R)
        (m : PositionalEncoding.t) (xs : Tensor) (B T : nat) :
  PositionalEncoding.__init__ d p "add" 1 = Ok m ->
  shape xs = [B; T; Z.to_nat d] ->
  exists table dp s,
    PositionalEncoding.pe m = Some table /\
    PositionalEncoding.dropout m = Some dp /\
    PositionalEncoding.forward m xs = Ok (dp s) /\
    shape s = shape xs /\
    forall b t k, (b < B)%nat -> (t < T)%nat -> (k < Z.to_nat d)%nat ->
      val s [b; t; k] =
      (val xs [b; t; k] * sqrt (IZR d) + val table [0; 0; k]%nat)%R.
Proof.
  intros Hok Hxs.
  destruct (@PE_forward_prefix fw d 1 p "add" m xs B T (Z.to_nat d)
              eq_refl Hok Hxs) as (table & dp & Hdp & Hpe & Hsh & Hf).
  destruct (PE_init_ok_inv d 1 p "add" eq_refl Hok)
    as (_ & _ & _ & table' & dp' & Hdp' & Hm & _).
  rewrite Hdp in Hdp'. injection Hdp' as <-.
  rewrite Hf. cbv zeta. change ("add" =? "add")%string with true. cbv iota.
  change (Z.to_nat 1) with 1%nat.
  unfold add, binop. cbn [shape mul_scalar pointwise]. rewrite Hxs.
  assert (Hb : broadcast_shapes [B; T; Z.to_nat d]
                 [1%nat; Nat.min T 1; Z.to_nat d] = Some [B; T; Z.to_nat d]).
  { unfold broadcast_shapes. cbn [rev app broadcast_rev].
    destruct T as [|[|T]]; cbn [Nat.min Nat.eqb];
      destruct (B =? 1)%nat eqn:HB;
      try (apply Nat.eqb_eq in HB; rewrite HB);
      rewrite ?Nat.eqb_refl; reflexivity. }
  rewrite Hb. cbn [bind].
  eexists table, dp, _. split; [assumption|].
  split; [subst m; reflexivity|]. split; [reflexivity|].
  split; [reflexivity|].
  intros b t k Hb' Ht Hk. cbn [val]. unfold bval, bidx.
  cbn [shape mul_scalar pointwise val]. rewrite Hxs. cbn [rev app bidx_rev].
  rewrite (bcast_index Hb'), (bcast_index Ht), (bcast_index Hk).
  cbn [Nat.eqb].
  replace (if (Nat.min T 1 =? 1)%nat then 0%nat else t) with 0%nat;
    [reflexivity|].
  destruct T as [|[|T]]; [lia | reflexivity | reflexivity].
Qed.

Lemma X7_forward_add_max_len_1_witness :
  is_ok (PositionalEncoding.forward
           (get (PositionalEncoding.__init__ (fw := identity_layers) 4 0%R
                   "add" 1) pe_add_4_8)
           ones_2_3_4) = true.
Proof.
  destruct (@X7_forward_add_max_len_1 identity_layers 4 0%R
              (get (PositionalEncoding.__init__ (fw := identity_layers) 4 0%R
                      "add" 1) pe_add_4_8)
              ones_2_3_4 2 3 eq_refl eq_refl)
    as (table & dp & s & _ & _ & -> & _).
  reflexivity.
Defined.

(** X8. 'concat' works for a batch of one only: on an input of shape
    [B, T, d_model] with [T <= max_len], forward raises the framework's
    RuntimeError when [B <> 1] ([torch.cat] does not broadcast the batch
    dimension of the table), and for [B = 1] it returns a tensor of shape
    [1, T, 2 * d_model] (before dropout: the scaled input in the first
    [d_model] columns, the table in the last [d_model]). *)
Theorem X8_forward_concat (fw : Framework) (d ml : Z) (p : R)
        (m : PositionalEncoding.t) (xs : Tensor) (B T : nat) :
  PositionalEncoding.__init__ d p "concat" ml = Ok m ->
  shape xs = [B; T; Z.to_nat d] ->
  (T <= Z.to_nat ml)%nat ->
  (B <> 1%nat -> PositionalEncoding.forward m xs = Raise RuntimeError) /\
  (B = 1%nat ->
   exists table dp s,
     PositionalEncoding.pe m = Some table /\
     PositionalEncoding.dropout m = Some dp /\
     PositionalEncoding.forward m xs = Ok (dp s) /\
     shape s = [1; T; Z.to_nat d + Z.to_nat d]%nat /\
     shape (dp s) = [1; T; Z.to_nat d + Z.to_nat d]%nat /\
     forall t k, (t < T)%nat -> (k < Z.to_nat d + Z.to_nat d)%nat ->
       val s [0; t; k]%nat =
       if (k <? Z.to_nat d)%nat
       then (val xs [0; t; k]%nat * sqrt (IZR d))%R
       else val table [0; t; k - Z.to_nat d]%nat).
Proof.
  intros Hok Hxs HT.
  destruct (@PE_forward_prefix fw d ml p "concat" m xs B T (Z.to_nat d)
              eq_refl Hok Hxs) as (table & dp & Hdp & Hpe & Hsh & Hf).
  destruct (PE_init_ok_inv d ml p "concat" eq_refl Hok)
    as (_ & _ & _ & table' & dp' & Hdp' & Hm & _).
  rewrite Hdp in Hdp'. injection Hdp' as <-.
  rewrite Hf. cbv zeta.
  change ("concat" =? "add")%string with false.
  change ("concat" =? "concat")%string with true. cbv iota.
  rewrite Nat.min_l by assumption.
  unfold cat_last. cbn [shape mul_scalar pointwise]. rewrite Hxs.
  cbn [rev app].
  destruct (list_eq_dec Nat.eq_dec [T; B] [T; 1%nat]) as [E|E].
  - injection E as ->. split; [congruence|]. intros _.
    cbn [bind rev app].
    eexists table, dp, _. split; [assumption|].
    split; [subst m; reflexivity|]. split; [reflexivity|].
    split; [reflexivity|].
    split; [now rewrite (nn_Dropout_shape _ Hdp)|].
    intros t k Ht Hk. cbn [val rev app]. reflexivity.
  - split; [reflexivity|]. intros ->. now elim E.
Qed.

Lemma X8_forward_concat_witness :
  PositionalEncoding.forward
    (get (PositionalEncoding.__init__ (fw := identity_layers) 4 0%R
            "concat" 8) pe_add_4_8)
    ones_2_3_4 = Raise RuntimeError /\
  exists s,
    PositionalEncoding.forward
      (get (PositionalEncoding.__init__ (fw := identity_layers) 4 0%R
              "concat" 8) pe_add_4_8)
      (mkTensor [1; 3; 4]%nat (fun _ => 1%R)) = Ok s /\
    shape s = [1; 3; 8]%nat.
Proof.
  split.
  - apply (proj1 (@X8_forward_concat identity_layers 4 8 0%R
                    (get (PositionalEncoding.__init__ (fw := identity_layers)
                            4 0%R "concat" 8) pe_add_4_8)
                    ones_2_3_4 2 3 eq_refl eq_refl ltac:(cbn; lia))).
    discriminate.
  - destruct (proj2 (@X8_forward_concat identity_layers 4 8 0%R
                       (get (PositionalEncoding.__init__
                               (fw := identity_layers) 4 0%R "concat" 8)
                            pe_add_4_8)
                       (mkTensor [1; 3; 4]%nat (fun _ => 1%R)) 1 3
                       eq_refl eq_refl ltac:(cbn; lia)) eq_refl)
      as (table & dp & s & _ & _ & Hf & _ & Hs & _).
    exists (dp s). split; [exact Hf | exact Hs].
Defined.

(** X9. 'add' and 'concat' need an input with a time axis: on a tensor of
    rank 0 or 1 forward raises IndexError (from [xs.size(1)]), whatever the
    table; 'none' accepts the same input. *)
Theorem X9_forward_needs_rank_2 (fw : Framework) (d ml : Z) (p : R)
        (pt : string) (m : PositionalEncoding.t) (xs : Tensor) :
  pt = "add"%string \/ pt = "concat"%string ->
  PositionalEncoding.__init__ d p pt ml = Ok m ->
  (List.length (shape xs) < 2)%nat ->
  PositionalEncoding.forward m xs = Raise IndexError /\
  is_ok (PositionalEncoding.forward
           (PositionalEncoding.mk d "none" None None) xs) = true.
Proof.
  intros Hpt Hok Hrank.
  assert (Hnone : (pt =? "none")%string = false)
    by (destruct Hpt as [-> | ->]; reflexivity).
  destruct (PE_init_ok_inv _ _ _ _ Hnone Hok)
    as (_ & Hd & _ & table & dp & _ & -> & _).
  assert (Hsize : nth_error (shape xs) 1 = None)
    by (apply nth_error_None; lia).
  unfold PositionalEncoding.forward, math_sqrt.
  cbn [PositionalEncoding.d_model PositionalEncoding.pe_type
       PositionalEncoding.pe PositionalEncoding.dropout].
  destruct (Z.ltb_spec d 0); [lia|]. cbn [bind].
  split; [|reflexivity].
  unfold size. cbn [shape mul_scalar pointwise getattr bind].
  rewrite Hsize.
  destruct Hpt as [-> | ->]; reflexivity.
Qed.

Lemma X9_forward_needs_rank_2_witness :
  PositionalEncoding.forward pe_add_4_8 (mkTensor [4]%nat (fun _ => 1%R))
  = Raise IndexError.
Proof.
  apply (@X9_forward_needs_rank_2 identity_layers 4 8 0%R "add" pe_add_4_8
           (mkTensor [4]%nat (fun _ => 1%R)) (or_introl eq_refl) eq_refl).
  cbn. lia.
Defined.

(** X10. With 'none' a negative [d_model] is accepted by the constructor
    and surfaces at the first call: forward raises the ValueError of
    [math.sqrt] on every input. *)
Theorem X10_none_negative_d_model (fw : Framework) (d ml : Z) (p : R)
        (xs : Tensor) :
  (d < 0)%Z ->
  exists m,
    PositionalEncoding.__init__ d p "none" ml = Ok m /\
    PositionalEncoding.forward m xs = Raise ValueError.
Proof.
  intros Hd. eexists. split; [reflexivity|].
  unfold PositionalEncoding.forward, math_sqrt.
  cbn [PositionalEncoding.d_model].
  destruct (Z.ltb_spec d 0); [reflexivity | lia].
Qed.

Lemma X10_none_negative_d_model_witness :
  exists m,
    PositionalEncoding.__init__ (fw := identity_layers) (-4) 0%R "none" 8
    = Ok m /\
    PositionalEncoding.forward m ones_2_3_4 = Raise ValueError.
Proof.
  apply (@X10_none_negative_d_model identity_layers (-4) 8 0%R ones_2_3_4).
  lia.
Defined.

(** ** Further properties of the feed-forward network and the blocks *)

(** X11. PositionwiseFeedForward.__init__ returns a module exactly when
    its two linear layers and its dropout layer can be built and the
    nonlinearity is 'relu', 'gelu', 'gelu_accurate', or 'glu' with a
    [LinearGLUBlock(d_ff)] that can be built; the gated block is built for
    'glu' only. *)
Theorem X11_feed_forward_init_succeeds_iff (fw : Framework)
        (d_in d_ff d_out : Z) (p : R) (nl : string) :
  is_ok (PositionwiseFeedForward.__init__ d_in d_ff d_out p nl) =
  is_ok (nn_Linear d_in d_ff) && is_ok (nn_Linear d_ff d_out)
  && is_ok (nn_Dropout p)
  && ((nl =? "relu")%string || (nl =? "gelu")%string
      || (nl =? "gelu_accurate")%string
      || ((nl =? "glu")%string && is_ok (LinearGLUBlock d_ff))).
Proof.
  unfold PositionwiseFeedForward.__init__.
  destruct (nn_Linear d_in d_ff); [|reflexivity].
  destruct (nn_Linear d_ff d_out); [|reflexivity].
  destruct (nn_Dropout p); [|reflexivity].
  cbn [bind is_ok andb].
  destruct (nl =? "relu")%string; [reflexivity|].
  destruct (nl =? "gelu")%string; [reflexivity|].
  destruct (nl =? "gelu_accurate")%string; [reflexivity|].
  destruct (nl =? "glu")%string; [|reflexivity].
  destruct (LinearGLUBlock d_ff); reflexivity.
Qed.

Section BlockFacts.
Context {fw : Framework}.

Lemma TEB_init_is_ok (d_model d_ff n_heads : Z) (p p_att eps : R)
      (atype nl : string) :
  is_ok (TransformerEncoderBlock.__init__ d_model d_ff atype n_heads p p_att
           eps nl) =
  is_ok (nn_LayerNorm d_model eps)
  && is_ok (MultiheadAttentionMechanism d_model d_model d_model atype
              n_heads p_att)
  && is_ok (nn_Dropout p)
  && is_ok (PositionwiseFeedForward.__init__ d_model d_ff d_model p nl).
Proof.
  unfold TransformerEncoderBlock.__init__.
  destruct (nn_LayerNorm d_model eps); [|reflexivity].
  destruct (MultiheadAttentionMechanism _ _ _ _ _ _); [|reflexivity].
  destruct (nn_Dropout p); [|reflexivity].
  cbn [bind is_ok andb].
  destruct (PositionwiseFeedForward.__init__ _ _ _ _ _); reflexivity.
Qed.

Lemma TDB_init_is_ok (d_model d_ff n_heads : Z) (p p_att eps : R)
      (atype nl : string) (sta : bool) :
  is_ok (TransformerDecoderBlock.__init__ d_model d_ff atype n_heads p p_att
           eps nl sta) =
  negb (atype =? "average")%string
  && is_ok (nn_LayerNorm d_model eps)
  && is_ok (MultiheadAttentionMechanism d_model d_model d_model atype
              n_heads p_att)
  && is_ok (nn_Dropout p)
  && is_ok (PositionwiseFeedForward.__init__ d_model d_ff d_model p nl).
Proof.
  unfold TransformerDecoderBlock.__init__.
  destruct (atype =? "average")%string; [reflexivity|].
  destruct (nn_LayerNorm d_model eps); [|reflexivity].
  destruct (MultiheadAttentionMechanism _ _ _ _ _ _); [|reflexivity].
  destruct (nn_Dropout p); [|reflexivity].
  cbn [bind is_ok andb negb].
  destruct sta; cbn [bind];
    destruct (PositionwiseFeedForward.__init__ _ _ _ _ _); reflexivity.
Qed.

Lemma is_ok_not_Ok (A : Type) (c : result A) :
  is_ok c = false -> forall a, c <> Ok a.
Proof. intros H a ->. discriminate. Qed.

End BlockFacts.

(** X12. An unsupported [ffn_nonlinear] stops the construction of both
    blocks: neither TransformerEncoderBlock.__init__ nor
    TransformerDecoderBlock.__init__ returns a block for it, and the
    encoder raises NotImplementedError(ffn_nonlinear) once the layers built
    before the nonlinearity check are built. *)
Theorem X12_blocks_reject_unsupported_nonlinear (fw : Framework)
        (d_model d_ff n_heads : Z) (p p_att eps : R) (atype nl : string) :
  supported_nonlinear nl = false ->
  (forall blk,
      TransformerEncoderBlock.__init__ d_model d_ff atype n_heads p p_att
        eps nl <> Ok blk) /\
  (forall sta blk,
      TransformerDecoderBlock.__init__ d_model d_ff atype n_heads p p_att
        eps nl sta <> Ok blk) /\
  (is_ok (nn_LayerNorm d_model eps) = true ->
   is_ok (MultiheadAttentionMechanism d_model d_model d_model atype n_heads
            p_att) = true ->
   is_ok (nn_Dropout p) = true ->
   is_ok (nn_Linear d_model d_ff) = true ->
   is_ok (nn_Linear d_ff d_model) = true ->
   TransformerEncoderBlock.__init__ d_model d_ff atype n_heads p p_att eps nl
   = Raise (NotImplementedError (Some nl))).
Proof.
  intros Hnl.
  assert (Hff : is_ok (PositionwiseFeedForward.__init__ d_model d_ff d_model
                         p nl) = false).
  { destruct (PositionwiseFeedForward.__init__ d_model d_ff d_model p nl)
      as [m|] eqn:E; [|reflexivity].
    now elim (@PFF_init_unsupported_not_ok _ d_model d_ff d_model p nl m Hnl). }
  split; [|split].
  - apply is_ok_not_Ok. rewrite TEB_init_is_ok, Hff. apply andb_false_r.
  - intros sta. apply is_ok_not_Ok. rewrite TDB_init_is_ok, Hff.
    apply andb_false_r.
  - unfold TransformerEncoderBlock.__init__.
    rewrite PFF_init_unsupported by assumption.
    destruct (nn_LayerNorm d_model eps); [|discriminate].
    destruct (MultiheadAttentionMechanism _ _ _ _ _ _); [|discriminate].
    destruct (nn_Dropout p); [|discriminate].
    destruct (nn_Linear d_model d_ff); [|discriminate].
    destruct (nn_Linear d_ff d_model); [|discriminate].
    reflexivity.
Qed.

Lemma X12_blocks_reject_unsupported_nonlinear_witness :
  TransformerEncoderBlock.__init__ (fw := identity_layers) 4 8 "scaled_dot" 2
    0%R 0%R 0%R "swish" = Raise (NotImplementedError (Some "swish"%string)).
Proof.
  apply (proj2 (proj2 (@X12_blocks_reject_unsupported_nonlinear
                         identity_layers 4 8 2 0%R 0%R 0%R "scaled_dot"
                         "swish" eq_refl))); reflexivity.
Defined.

(** X13. The two blocks treat [atype] differently.
    TransformerEncoderBlock.__init__ has no check of its own: it returns a
    block exactly when its LayerNorm, attention, dropout and feed-forward
    constructors do, so 'average' is refused only if the attention
    constructor refuses it. TransformerDecoderBlock.__init__ needs the same
    constructors and in addition [atype != 'average'], with or without
    source-target attention. *)
Theorem X13_block_init_succeeds_iff (fw : Framework)
        (d_model d_ff n_heads : Z) (p p_att eps : R) (atype nl : string)
        (sta : bool) :
  let layers :=
    is_ok (nn_LayerNorm d_model eps)
    && is_ok (MultiheadAttentionMechanism d_model d_model d_model atype
                n_heads p_att)
    && is_ok (nn_Dropout p)
    && is_ok (PositionwiseFeedForward.__init__ d_model d_ff d_model p nl) in
  is_ok (TransformerEncoderBlock.__init__ d_model d_ff atype n_heads p p_att
           eps nl) = layers /\
  is_ok (TransformerDecoderBlock.__init__ d_model d_ff atype n_heads p p_att
           eps nl sta) = negb (atype =? "average")%string && layers.
Proof.
  cbv zeta. split.
  - apply TEB_init_is_ok.
  - rewrite TDB_init_is_ok. now rewrite !andb_assoc.
Qed.

Section DecoderSrcFacts.
Context {fw : Framework}.

(** A block constructed with source-target attention has its three
    optional layers. *)
Lemma TDB_init_with_src_inv (d_model d_ff n_heads : Z) (p p_att eps : R)
      (atype nl : string) (blk : TransformerDecoderBlock.t) :
  TransformerDecoderBlock.__init__ d_model d_ff atype n_heads p p_att eps nl
    true = Ok blk ->
  exists norm2 src dropout2,
    TransformerDecoderBlock.norm2 blk = Some norm2 /\
    TransformerDecoderBlock.src_attn blk = Some src /\
    TransformerDecoderBlock.dropout2 blk = Some dropout2.
Proof.
  unfold TransformerDecoderBlock.__init__.
  destruct (atype =? "average")%string; [discriminate|].
  destruct (nn_LayerNorm d_model eps); [|discriminate].
  destruct (MultiheadAttentionMechanism _ _ _ _ _ _); [|discriminate].
  destruct (nn_Dropout p); [|discriminate].
  cbn [bind].
  destruct (PositionwiseFeedForward.__init__ _ _ _ _ _); [|discriminate].
  cbn [bind]. intros H. injection H as <-.
  do 3 eexists. repeat split; reflexivity.
Qed.

Lemma broadcast_rev_same (l : list nat) : broadcast_rev l l = Some l.
Proof.
  induction l as [|x l IH]; [reflexivity|].
  cbn [broadcast_rev]. now rewrite IH, Nat.eqb_refl.
Qed.

(** A residual sum of two tensors of one shape always exists. *)
Lemma add_same_shape (a b : Tensor) :
  shape a = shape b ->
  exists s, add a b = Ok s /\ shape s = shape b.
Proof.
  intros H. unfold add, binop, broadcast_shapes.
  rewrite H, broadcast_rev_same. cbn [option_map].
  rewrite rev_involutive. eexists. split; reflexivity.
Qed.

End DecoderSrcFacts.

(** X14. A decoder block constructed with source-target attention has its
    [norm2], [src_attn] and [dropout2], so forward raises no
    AttributeError; with the three dropout layers acting as the identity
    it is the three-sublayer pre-norm block: self-attention on
    [norm1(ys)], attention with the encoder outputs [xs] as key and value
    and [norm2] of the decoder state as query, and the feed-forward
    network on [norm3], each added to its own input; [xy_aw] is the
    weights of the second attention. *)
Theorem X14_decoder_forward_with_src (fw : Framework)
        (d_model d_ff n_heads : Z) (p p_att eps : R) (atype nl : string)
        (blk : TransformerDecoderBlock.t) :
  TransformerDecoderBlock.__init__ d_model d_ff atype n_heads p p_att eps nl
    true = Ok blk ->
  exists norm2 src dropout2,
    TransformerDecoderBlock.norm2 blk = Some norm2 /\
    TransformerDecoderBlock.src_attn blk = Some src /\
    TransformerDecoderBlock.dropout2 blk = Some dropout2 /\
    ((forall x, TransformerDecoderBlock.dropout1 blk x = x) ->
     (forall x, dropout2 x = x) ->
     (forall x, TransformerDecoderBlock.dropout3 blk x = x) ->
     forall ys yy_mask xs xy_mask,
       TransformerDecoderBlock.forward blk ys yy_mask xs xy_mask =
       (n1 <- TransformerDecoderBlock.norm1 blk ys ;;
        ' (a, yy_aw, attn) <-
          mha_call (mha_reset (TransformerDecoderBlock.self_attn blk))
                   (Some n1) (Some n1) n1 yy_mask ;;
        h1 <- add a ys ;;
        n2 <- norm2 h1 ;;
        ' (c, xy_aw, src') <- mha_call (mha_reset src) xs xs n2 xy_mask ;;
        h2 <- add c h1 ;;
        n3 <- TransformerDecoderBlock.norm3 blk h2 ;;
        ff <- PositionwiseFeedForward.forward
                (TransformerDecoderBlock.feed_forward blk) n3 ;;
        out <- add ff h2 ;;
        Ok (out, yy_aw, Some xy_aw,
            TransformerDecoderBlock.set_attn blk attn (Some src')))).
Proof.
  intros Hok.
  destruct (TDB_init_ok_inv _ _ _ _ _ _ _ _ _ Hok) as (Ha & Hat & Hs).
  destruct (TDB_init_with_src_inv _ _ _ _ _ _ _ _ Hok)
    as (norm2 & src & dropout2 & Hn2 & Hsrc & Hd2).
  exists norm2, src, dropout2. do 3 (split; [assumption|]).
  intros H1 H2 H3 ys yy_mask xs xy_mask.
  unfold TransformerDecoderBlock.forward.
  rewrite Hat, Ha, Hs, Hn2, Hsrc, Hd2.
  destruct (TransformerDecoderBlock.norm1 blk ys) as [n1|]; [|reflexivity].
  cbn [bind].
  destruct (mha_call _ _ _ n1 _) as [[[a aw] attn]|]; [|reflexivity].
  cbn [bind]. rewrite H1.
  destruct (add a ys) as [h1|]; [|reflexivity]. cbn [bind getattr].
  destruct (norm2 h1) as [n2|]; [|reflexivity]. cbn [bind].
  destruct (mha_call _ _ _ n2 _) as [[[c xaw] src']|]; [|reflexivity].
  cbn [bind]. rewrite H2.
  destruct (add c h1) as [h2|]; [|reflexivity]. cbn [bind].
  destruct (TransformerDecoderBlock.norm3 blk h2) as [n3|]; [|reflexivity].
  cbn [bind].
  destruct (PositionwiseFeedForward.forward _ n3) as [ff|]; [|reflexivity].
  cbn [bind]. now rewrite H3.
Qed.

Lemma X14_decoder_forward_with_src_witness :
  exists norm2 src dropout2,
    TransformerDecoderBlock.norm2
      (get (TransformerDecoderBlock.__init__ (fw := identity_layers) 4 8
              "scaled_dot" 2 0%R 0%R 0%R "relu" true) decoder_4_8)
    = Some norm2 /\
    TransformerDecoderBlock.src_attn
      (get (TransformerDecoderBlock.__init__ (fw := identity_layers) 4 8
              "scaled_dot" 2 0%R 0%R 0%R "relu" true) decoder_4_8)
    = Some src /\
    TransformerDecoderBlock.dropout2
      (get (TransformerDecoderBlock.__init__ (fw := identity_layers) 4 8
              "scaled_dot" 2 0%R 0%R 0%R "relu" true) decoder_4_8)
    = Some dropout2.
Proof.
  destruct (@X14_decoder_forward_with_src identity_layers 4 8 2 0%R 0%R 0%R
              "scaled_dot" "relu"
              (get (TransformerDecoderBlock.__init__ (fw := identity_layers)
                      4 8 "scaled_dot" 2 0%R 0%R 0%R "relu" true)
                   decoder_4_8) eq_refl)
    as (norm2 & src & dropout2 & H1 & H2 & H3 & _).
  exists norm2, src, dropout2. repeat split; assumption.
Defined.

(** X15. The encoder block keeps the shape of its input: when the layer
    norms, the attention (context of the shape of the query), the
    feed-forward network and the dropout layers preserve shapes, the
    output of forward has the shape of [xs]; the two residual additions
    never fail, so forward returns whenever its sublayers return. *)
Theorem X15_encoder_block_preserves_shape (fw : Framework)
        (self : TransformerEncoderBlock.t) (xs : Tensor)
        (xx_mask : option Tensor) :
  (forall x y, TransformerEncoderBlock.norm1 self x = Ok y ->
               shape y = shape x) ->
  (forall x y, TransformerEncoderBlock.norm2 self x = Ok y ->
               shape y = shape x) ->
  (forall a k v q msk c aw a',
      mha_call a k v q msk = Ok (c, aw, a') -> shape c = shape q) ->
  (forall x y,
      PositionwiseFeedForward.forward
        (TransformerEncoderBlock.feed_forward self) x = Ok y ->
      shape y = shape x) ->
  (forall x, shape (TransformerEncoderBlock.dropout1 self x) = shape x) ->
  (forall x, shape (TransformerEncoderBlock.dropout2 self x) = shape x) ->
  (forall out aws self',
      TransformerEncoderBlock.forward self xs xx_mask = Ok (out, aws, self')
      -> shape out = shape xs) /\
  ((forall x, is_ok (TransformerEncoderBlock.norm1 self x) = true) ->
   (forall x, is_ok (TransformerEncoderBlock.norm2 self x) = true) ->
   (forall a k v q msk, is_ok (mha_call a k v q msk) = true) ->
   (forall x, is_ok (PositionwiseFeedForward.forward
                       (TransformerEncoderBlock.feed_forward self) x)
              = true) ->
   is_ok (TransformerEncoderBlock.forward self xs xx_mask) = true).
Proof.
  intros Hn1 Hn2 Hat Hff Hd1 Hd2.
  unfold TransformerEncoderBlock.forward.
  split.
  - intros out aws self'.
    destruct (TransformerEncoderBlock.norm1 self xs) as [n1|] eqn:E1;
      [|discriminate].
    cbn [bind].
    destruct (mha_call _ _ _ n1 _) as [[[a aw] attn]|] eqn:E2;
      [|discriminate].
    cbn [bind].
    destruct (@add_same_shape (TransformerEncoderBlock.dropout1 self a) xs)
      as (h & -> & Hh).
    { rewrite Hd1, (Hat _ _ _ _ _ _ _ _ E2). now apply Hn1. }
    cbn [bind].
    destruct (TransformerEncoderBlock.norm2 self h) as [n2|] eqn:E3;
      [|discriminate].
    cbn [bind].
    destruct (PositionwiseFeedForward.forward _ n2) as [ff|] eqn:E4;
      [|discriminate].
    cbn [bind].
    destruct (@add_same_shape (TransformerEncoderBlock.dropout2 self ff) h)
      as (o & -> & Ho).
    { rewrite Hd2, (Hff _ _ E4). now apply Hn2. }
    cbn [bind]. intros H. injection H as <- _ _. congruence.
  - intros T1 T2 T3 T4.
    destruct (TransformerEncoderBlock.norm1 self xs) as [n1|] eqn:E1;
      [|pose proof (T1 xs) as C; rewrite E1 in C; discriminate].
    cbn [bind].
    destruct (mha_call (mha_reset (TransformerEncoderBlock.self_attn self))
                (Some n1) (Some n1) n1 xx_mask)
      as [[[a aw] attn]|] eqn:E2; [|pose proof (T3 (mha_reset (TransformerEncoderBlock.self_attn self)) (Some n1) (Some n1) n1 xx_mask) as C;
        rewrite E2 in C; discriminate].
    cbn [bind].
    destruct (@add_same_shape (TransformerEncoderBlock.dropout1 self a) xs)
      as (h & -> & Hh).
    { rewrite Hd1, (Hat _ _ _ _ _ _ _ _ E2). now apply Hn1. }
    cbn [bind].
    destruct (TransformerEncoderBlock.norm2 self h) as [n2|] eqn:E3;
      [|pose proof (T2 h) as C; rewrite E3 in C; discriminate].
    cbn [bind].
    destruct (PositionwiseFeedForward.forward
                (TransformerEncoderBlock.feed_forward self) n2)
      as [ff|] eqn:E4; [|pose proof (T4 n2) as C; rewrite E4 in C; discriminate].
    cbn [bind].
    destruct (@add_same_shape (TransformerEncoderBlock.dropout2 self ff) h)
      as (o & -> & Ho).
    { rewrite Hd2, (Hff _ _ E4). now apply Hn2. }
    reflexivity.
Qed.

Lemma X15_encoder_block_preserves_shape_witness :
  is_ok (TransformerEncoderBlock.forward encoder_4_8 ones_2_3_4 None) = true.
Proof.
  apply (proj2 (@X15_encoder_block_preserves_shape identity_layers
                  encoder_4_8 ones_2_3_4 None
                  ltac:(intros x y H; cbv in H; now injection H as <-)
                  ltac:(intros x y H; cbv in H; now injection H as <-)
                  ltac:(intros a k v q msk c aw a' H; cbv in H;
                        now injection H as <- _ _)
                  ltac:(intros x y H; cbv in H; now injection H as <-)
                  ltac:(intros x; reflexivity)
                  ltac:(intros x; reflexivity)));
    intros; reflexivity.
Defined.

(** ** Further properties of the training loop *)

Section EvaluationCount.
Variable D : TestAttention.Driver.

Lemma div10_succ (k : nat) :
  ((k + 1) / 10 =
   if ((k + 1) mod 10 =? 0) then k / 10 + 1 else k / 10)%nat.
Proof.
  pose proof (Nat.div_mod_eq k 10) as H1.
  pose proof (Nat.div_mod_eq (k + 1) 10) as H2.
  pose proof (Nat.mod_upper_bound k 10 ltac:(lia)) as H3.
  pose proof (Nat.mod_upper_bound (k + 1) 10 ltac:(lia)) as H4.
  destruct (Nat.eqb_spec ((k + 1) mod 10) 0); lia.
Qed.

(** One error rate is reported per ten updates. *)
Lemma train_evaluations (n k : nat)
      (r : TestAttention.Run (TestAttention.Model D)) :
  TestAttention.n_updates r = k ->
  List.length (TestAttention.lers r) = (k / 10)%nat ->
  let r' := TestAttention.train D (seq k n) r in
  List.length (TestAttention.lers r') =
  (TestAttention.n_updates r' / 10)%nat.
Proof.
  revert k r. induction n as [|n IH]; intros k r Hk Hl.
  - cbn [seq TestAttention.train]. cbv zeta. now rewrite Hk.
  - cbn [seq TestAttention.train].
    destruct (TestAttention.update D (TestAttention.model r)) as [m loss].
    set (m' := if TestAttention.Qltb loss (50 # 1)
               then TestAttention.inject_noise D m else m).
    pose proof (div10_succ k) as Hdiv.
    replace (k + 1)%nat with (S k) in Hdiv at 1 by lia.
    destruct ((k + 1) mod 10 =? 0)%nat eqn:Hten.
    + destruct (TestAttention.Qltb (TestAttention.decode_ler D m') (1 # 10)).
      * cbv zeta.
        cbn [TestAttention.n_updates TestAttention.lers List.length].
        rewrite Hk, Hl, Hdiv. lia.
      * destruct (TestAttention.decay_lr D m' (TestAttention.learning_rate r)
                    k (TestAttention.decode_ler D m')) as [m2 lr].
        apply (IH (S k)).
        -- cbn [TestAttention.n_updates]. now rewrite Hk.
        -- cbn [TestAttention.lers List.length]. rewrite Hl, Hdiv. lia.
    + apply (IH (S k)).
      * cbn [TestAttention.n_updates]. now rewrite Hk.
      * cbn [TestAttention.lers]. now rewrite Hl, Hdiv.
Qed.

End EvaluationCount.

(** X16. The test scores the model exactly once per ten optimizer steps:
    when [check] returns, the number of error rates it has reported is the
    number of updates divided by ten; a run that never gets below 0.1
    reports exactly 100 error rates. *)
Theorem X16_one_evaluation_per_ten_steps (D : TestAttention.Driver)
        (m0 : TestAttention.Model D) :
  exists r,
    TestAttention.check D m0 = Ok r /\
    List.length (TestAttention.lers r) =
    (TestAttention.n_updates r / 10)%nat /\
    (TestAttention.converged r = false ->
     List.length (TestAttention.lers r) = 100%nat).
Proof.
  unfold TestAttention.check. eexists. split; [reflexivity|].
  pose proof (@train_evaluations D TestAttention.max_step 0
                (TestAttention.mkRun m0 (1 # 1000)%Q 0 [] false)
                eq_refl eq_refl) as Hlen.
  pose proof (@train_outcome D TestAttention.max_step 0
                (TestAttention.mkRun m0 (1 # 1000)%Q 0 [] false)
                eq_refl eq_refl (Forall_nil _)) as (_ & Hfull & _).
  cbv zeta in Hlen, Hfull.
  split; [exact Hlen|].
  intros Hc. destruct (Hfull Hc) as [Hn _].
  rewrite Hlen, Hn. reflexivity.
Qed.

Lemma X16_one_evaluation_per_ten_steps_witness :
  exists r,
    TestAttention.check rising_driver 0%nat = Ok r /\
    List.length (TestAttention.lers r) = 100%nat.
Proof.
  destruct (X16_one_evaluation_per_ten_steps rising_driver 0%nat)
    as (r & Hr & _ & Hc).
  exists r. split; [exact Hr|]. apply Hc.
  rewrite (check_returns_run Hr). vm_compute. reflexivity.
Defined.

(** X17. The feature dimension of the input must be [d_model]: with 'add',
    an input of shape [B, T, D'] with [D' <> d_model], where neither is 1,
    makes forward raise the framework's RuntimeError, whatever [B] and
    [T]. *)
Theorem X17_forward_add_feature_mismatch (fw : Framework) (d ml : Z) (p : R)
        (m : PositionalEncoding.t) (xs : Tensor) (B T D' : nat) :
  PositionalEncoding.__init__ d p "add" ml = Ok m ->
  shape xs = [B; T; D'] ->
  D' <> Z.to_nat d -> D' <> 1%nat -> Z.to_nat d <> 1%nat ->
  PositionalEncoding.forward m xs = Raise RuntimeError.
Proof.
  intros Hok Hxs H1 H2 H3.
  destruct (@PE_forward_prefix fw d ml p "add" m xs B T D'
              eq_refl Hok Hxs) as (table & dp & _ & _ & _ & ->).
  cbv zeta. change ("add" =? "add")%string with true. cbv iota.
  unfold add, binop, broadcast_shapes.
  cbn [shape mul_scalar pointwise]. rewrite Hxs.
  cbn [rev app]. cbn [broadcast_rev].
  apply Nat.eqb_neq in H1, H2, H3.
  destruct (if (B =? 1)%nat then _ else _) as [r0|]; [|reflexivity].
  destruct (if (T =? _)%nat then _ else _) as [r1|].
  - now rewrite H1, H2, H3.
  - reflexivity.
Qed.

Lemma X17_forward_add_feature_mismatch_witness :
  PositionalEncoding.forward pe_add_4_8
    (mkTensor [2; 3; 6]%nat (fun _ => 1%R)) = Raise RuntimeError.
Proof.
  apply (@X17_forward_add_feature_mismatch identity_layers 4 8 0%R pe_add_4_8
           (mkTensor [2; 3; 6]%nat (fun _ => 1%R)) 2 3 6 eq_refl eq_refl);
    cbn; lia.
Defined.
